(** * Keephy plans service: the plan resource and its HTTP handlers

    A shallow embedding of [src/index.js]: the plan schema, the document
    mapper operations the handlers call ([new Plan], [save], [find],
    [findById], [findByIdAndUpdate]) and the six [/api/plans] handlers, with
    the collection threaded through explicitly.

    Conventions.
    - A request body is a JS object, [gmap string jsval]; destructuring a key
      that is not there gives [JUndefined].
    - JS numbers are modelled by the rationals [Q]: the handlers do no
      arithmetic, they only test a number for zero and the store compares
      numbers, so a number travels through the service unchanged.
    - A stored field is an [option]: [None] is a path that holds null or is
      absent from the document.
    - A document is the pair of its [_id] and its fields; the collection is a
      finite map from [_id] to fields, which is the unique index on [_id].
    - The clock ([Date.now()], [new Date()]) and the identifier generated for
      a new document are inputs of the handler that reads them.
    - The store always answers. A call the store rejects (a lost connection,
      a timeout) is caught by each handler and answered with its 500; that
      outcome is outside the model, which therefore says when a 500 is
      given and never that a 500 is given only then. *)

From Stdlib Require Import ZArith QArith Lqa String Ascii DecimalString.
From stdpp Require Import gmap strings list sorting.

Set Warnings "-register-all".

Open Scope string_scope.

(** ** JavaScript values *)

Inductive jsval : Type :=
| JUndefined
| JNull
| JBool (b : bool)
| JNum (q : Q)
| JStr (s : string)
| JDate (t : Z)
| JArr (l : list jsval)
| JObj (o : gmap string jsval).

(** [!!v]: undefined, null, false, 0 and the empty string are falsy. *)
Definition truthy (v : jsval) : bool :=
  match v with
  | JUndefined | JNull => false
  | JBool b => b
  | JNum q => negb (Qeq_bool q 0)
  | JStr s => negb (String.eqb s "")
  | JDate _ | JArr _ | JObj _ => true
  end.

(** [a || b] *)
Definition js_or (a b : jsval) : jsval := if truthy a then a else b.

(** [v === undefined] *)
Definition is_undefined (v : jsval) : bool :=
  match v with JUndefined => true | _ => false end.

(** [v === 'true'] and the like: strict equality with a string literal. *)
Definition is_string (lit : string) (v : jsval) : bool :=
  match v with JStr s => String.eqb s lit | _ => false end.

(** [o.k], also what [const { k } = o] binds. *)
Definition prop (o : gmap string jsval) (k : string) : jsval :=
  default JUndefined (o !! k).

(** ** Errors and the exception monad of the handlers' [try] blocks *)

Inductive error := CastError | ValidationError | DuplicateKey.

Inductive result (A : Type) : Type :=
| Ok (a : A)
| Throw (e : error).
Arguments Ok {A} a.
Arguments Throw {A} e.

#[global] Instance result_ret : MRet result := fun A a => Ok a.
#[global] Instance result_bind : MBind result := fun A B f r =>
  match r with Ok a => f a | Throw e => Throw e end.

(** ** The platform under the handlers

    What the handlers rely on but the repository does not fix: the version of
    the document mapper and the runtime's conversions between numbers, dates
    and strings.
    - [omitUndefined]: whether the mapper drops a key whose value is
      [undefined] from an update ([true]), or sends it to the store, where it
      is written as null ([false]).
    - [castObjectId]: the mapper's reading of a path parameter as an
      identifier; [None] when the cast fails.
    - [Number_of_string], [Number_toString], [Date_toString]: [Number(s)]
      ([None] for NaN), [n.toString()] and [d.toString()]. *)

Abbreviation ObjectId := N.

Record Platform := {
  omitUndefined : bool;
  castObjectId : string -> option ObjectId;
  Number_of_string : string -> option Q;
  Number_toString : Q -> string;
  Date_toString : Z -> string
}.

(** ** The plan schema (lines 36-67) *)

Module Feature.
Record t := {
  name : option string;
  included : option bool;
  limit : option Q;
  description : option string
}.
End Feature.

Record Limits := {
  franchises : option Q;
  forms : option Q;
  submissions : option Q;
  staff : option Q;
  storage : option Q;
  apiCalls : option Q
}.

Record Plan := {
  name : option string;
  description : option string;
  price : option Q;
  currency : option string;
  interval : option string;
  features : option (list Feature.t);
  limits : option Limits;
  stripePriceId : option string;
  stripeProductId : option string;
  isActive : option bool;
  isPopular : option bool;
  sortOrder : option Q;
  createdAt : option Z;
  updatedAt : option Z
}.

Definition interval_enum : list string := ["monthly"; "yearly"; "lifetime"].

(** The outcome of casting a JS value to a schema type. *)
Inductive casted (A : Type) : Type :=
| CastFail
| CastUndefined
| CastNull
| CastTo (a : A).
Arguments CastFail {A}.
Arguments CastUndefined {A}.
Arguments CastNull {A}.
Arguments CastTo {A} a.

Section Mapper.
Variable P : Platform.

(** *** Schema types *)

(** String: a value with a [toString] of its own is converted; a plain
    object is accepted only for its string [_id]; an array is refused. *)
Definition castString (v : jsval) : casted string :=
  match v with
  | JUndefined => CastUndefined
  | JNull => CastNull
  | JStr s => CastTo s
  | JBool b => CastTo (if b then "true" else "false")
  | JNum q => CastTo (Number_toString P q)
  | JDate t => CastTo (Date_toString P t)
  | JArr _ => CastFail
  | JObj o =>
      match prop o "_id" with
      | JStr s => if String.eqb s "" then CastFail else CastTo s
      | _ => CastFail
      end
  end.

(** Number: the empty string is null, another string and a boolean go
    through [Number], NaN is refused. *)
Definition castNumber (v : jsval) : casted Q :=
  match v with
  | JUndefined => CastUndefined
  | JNull => CastNull
  | JNum q => CastTo q
  | JStr s =>
      if String.eqb s "" then CastNull
      else match Number_of_string P s with
           | Some q => CastTo q
           | None => CastFail
           end
  | JBool b => CastTo (if b then 1%Q else 0%Q)
  | JDate t => CastTo (inject_Z t)
  | JArr _ | JObj _ => CastFail
  end.

(** Boolean: the mapper's two sets of accepted values. *)
Definition castBoolean (v : jsval) : casted bool :=
  match v with
  | JUndefined => CastUndefined
  | JNull => CastNull
  | JBool b => CastTo b
  | JStr s =>
      if String.eqb s "true" || String.eqb s "1" || String.eqb s "yes"
      then CastTo true
      else if String.eqb s "false" || String.eqb s "0" || String.eqb s "no"
      then CastTo false
      else CastFail
  | JNum q =>
      if Qeq_bool q 1 then CastTo true
      else if Qeq_bool q 0 then CastTo false
      else CastFail
  | JDate _ | JArr _ | JObj _ => CastFail
  end.

(** Date. The handlers pass a [Date] of their own making, or nothing, to
    a date path and never a value of the request, so only these cases are
    reached; a number is read as milliseconds. *)
Definition castDate (v : jsval) : casted Z :=
  match v with
  | JUndefined => CastUndefined
  | JNull => CastNull
  | JDate t => CastTo t
  | JNum q => if (Qden q =? 1)%positive then CastTo (Qnum q) else CastFail
  | _ => CastFail
  end.

(** A schema path receiving a cast value: [None] when the cast failed;
    the default fills in for [undefined] only, null stays null. *)
Definition settle {A} (dflt : option A) (c : casted A) : option (option A) :=
  match c with
  | CastFail => None
  | CastUndefined => Some dflt
  | CastNull => Some None
  | CastTo a => Some (Some a)
  end.

(** One element of [features]; the generated [_id] of the sub-document is
    left out. *)
Definition castFeature (v : jsval) : option Feature.t :=
  match v with
  | JObj o =>
      name ← settle None (castString (prop o "name"));
      included ← settle None (castBoolean (prop o "included"));
      limit ← settle None (castNumber (prop o "limit"));
      description ← settle None (castString (prop o "description"));
      Some {| Feature.name := name; Feature.included := included;
              Feature.limit := limit; Feature.description := description |}
  | _ => None
  end.

(** [features]: an array of sub-documents; a single object is wrapped. *)
Definition castFeatures (v : jsval) : casted (list Feature.t) :=
  match v with
  | JUndefined => CastUndefined
  | JNull => CastNull
  | JArr l => from_option CastTo CastFail (mapM castFeature l)
  | JObj o => from_option (λ f, CastTo [f]) CastFail (castFeature (JObj o))
  | _ => CastFail
  end.

(** [limits]: a nested object whose six numbers default independently. A
    key left out of a stored [limits] is filled in with its default each
    time the document is loaded, so the default is stored here at once. *)
Definition castLimitsObject (o : gmap string jsval) : option Limits :=
  franchises ← settle (Some 1%Q) (castNumber (prop o "franchises"));
  forms ← settle (Some 5%Q) (castNumber (prop o "forms"));
  submissions ← settle (Some 100%Q) (castNumber (prop o "submissions"));
  staff ← settle (Some 5%Q) (castNumber (prop o "staff"));
  storage ← settle (Some 1024%Q) (castNumber (prop o "storage"));
  apiCalls ← settle (Some 1000%Q) (castNumber (prop o "apiCalls"));
  Some {| franchises := franchises; forms := forms;
          submissions := submissions; staff := staff;
          storage := storage; apiCalls := apiCalls |}.

Definition castLimits (v : jsval) : casted Limits :=
  match v with
  | JUndefined => CastUndefined
  | JNull => CastNull
  | JObj o => from_option CastTo CastFail (castLimitsObject o)
  | _ => CastFail
  end.

(** *** Documents *)

(** A path of a document under construction. A failed cast is remembered
    by the document and raised by [save]; the handler does nothing in
    between, so it is raised here. *)
Definition construct {A} (dflt : option A) (c : casted A) : result (option A) :=
  match settle dflt c with
  | Some v => Ok v
  | None => Throw CastError
  end.

(** [new Plan(obj)]: every schema path is read from [obj], cast, and
    defaulted as the schema says. *)
Definition Plan_new (now : Z) (obj : gmap string jsval) : result Plan :=
  name ← construct None (castString (prop obj "name"));
  description ← construct None (castString (prop obj "description"));
  price ← construct None (castNumber (prop obj "price"));
  currency ← construct (Some "USD") (castString (prop obj "currency"));
  interval ← construct (Some "monthly") (castString (prop obj "interval"));
  features ← construct (Some []) (castFeatures (prop obj "features"));
  limits ← construct (castLimitsObject ∅) (castLimits (prop obj "limits"));
  stripePriceId ← construct None (castString (prop obj "stripePriceId"));
  stripeProductId ← construct None (castString (prop obj "stripeProductId"));
  isActive ← construct (Some true) (castBoolean (prop obj "isActive"));
  isPopular ← construct (Some false) (castBoolean (prop obj "isPopular"));
  sortOrder ← construct (Some 0%Q) (castNumber (prop obj "sortOrder"));
  createdAt ← construct (Some now) (castDate (prop obj "createdAt"));
  updatedAt ← construct (Some now) (castDate (prop obj "updatedAt"));
  mret {| name := name; description := description; price := price;
          currency := currency; interval := interval; features := features;
          limits := limits; stripePriceId := stripePriceId;
          stripeProductId := stripeProductId; isActive := isActive;
          isPopular := isPopular; sortOrder := sortOrder;
          createdAt := createdAt; updatedAt := updatedAt |}.

(** The validators of the schema: [required] on [name] (a non-empty
    string) and on [price], the [enum] of [interval] (which lets a path
    without a value pass). *)
Definition validate (p : Plan) : bool :=
  match name p with Some s => negb (String.eqb s "") | None => false end
  && match price p with Some _ => true | None => false end
  && match interval p with
     | Some s => bool_decide (s ∈ interval_enum)
     | None => true
     end.

(** [doc.save()]: the document is validated as a whole, a loaded one like
    a new one; then comes the insert of a new document (refused by the
    unique index when the [_id] is taken) or the write of the changed paths
    of a loaded one. *)
Definition save (isNew : bool) (oid : ObjectId) (p : Plan)
    (db : gmap ObjectId Plan) : result (gmap ObjectId Plan) :=
  if validate p then
    if isNew then
      match db !! oid with
      | Some _ => Throw DuplicateKey
      | None => Ok (<[oid := p]> db)
      end
    else Ok (<[oid := p]> db)
  else Throw ValidationError.

(** [Plan.findById(id)]: the cast of [id] throws when it fails. *)
Definition findById (id : string) (db : gmap ObjectId Plan)
    : result (option (ObjectId * Plan)) :=
  match castObjectId P id with
  | None => Throw CastError
  | Some oid => Ok (pair oid <$> db !! oid)
  end.

(** One path of an update: a key that is not in the update leaves the
    path alone; [undefined] is dropped or written as null, as the
    platform has it; validators are not run. *)
Definition castPath {A} (cast : jsval -> casted A)
    (upd : gmap string jsval) (k : string) : result (option A -> option A) :=
  match upd !! k with
  | None => Ok (λ old, old)
  | Some v =>
      match cast v with
      | CastFail => Throw CastError
      | CastUndefined =>
          Ok (λ old, if omitUndefined P then old else None)
      | CastNull => Ok (λ _, None)
      | CastTo a => Ok (λ _, Some a)
      end
  end.

(** The update cast against the schema, as the change it makes to a
    stored document. *)
Definition castUpdate (upd : gmap string jsval) : result (Plan -> Plan) :=
  name' ← castPath castString upd "name";
  description' ← castPath castString upd "description";
  price' ← castPath castNumber upd "price";
  currency' ← castPath castString upd "currency";
  interval' ← castPath castString upd "interval";
  features' ← castPath castFeatures upd "features";
  limits' ← castPath castLimits upd "limits";
  stripePriceId' ← castPath castString upd "stripePriceId";
  stripeProductId' ← castPath castString upd "stripeProductId";
  isActive' ← castPath castBoolean upd "isActive";
  isPopular' ← castPath castBoolean upd "isPopular";
  sortOrder' ← castPath castNumber upd "sortOrder";
  createdAt' ← castPath castDate upd "createdAt";
  updatedAt' ← castPath castDate upd "updatedAt";
  mret (λ p,
    {| name := name' (name p); description := description' (description p);
       price := price' (price p); currency := currency' (currency p);
       interval := interval' (interval p); features := features' (features p);
       limits := limits' (limits p);
       stripePriceId := stripePriceId' (stripePriceId p);
       stripeProductId := stripeProductId' (stripeProductId p);
       isActive := isActive' (isActive p); isPopular := isPopular' (isPopular p);
       sortOrder := sortOrder' (sortOrder p);
       createdAt := createdAt' (createdAt p);
       updatedAt := updatedAt' (updatedAt p) |}).

(** [Plan.findByIdAndUpdate(id, upd, { new: true })]: both casts come
    before the store is asked; the document returned is the updated one. *)
Definition findByIdAndUpdate (id : string) (upd : gmap string jsval)
    (db : gmap ObjectId Plan)
    : result (option (ObjectId * Plan) * gmap ObjectId Plan) :=
  match castObjectId P id with
  | None => Throw CastError
  | Some oid =>
      change ← castUpdate upd;
      match db !! oid with
      | None => Ok (None, db)
      | Some p => Ok (Some (oid, change p), <[oid := change p]> db)
      end
  end.

End Mapper.

(** ** Queries: [Plan.find(filter).sort({ sortOrder: 1, price: 1 })] *)

(** The filter object the list handler builds: a key is set or not. *)
Record Filter := {
  filter_isActive : option bool;
  filter_isPopular : option bool
}.

Definition matches (f : Filter) (p : Plan) : bool :=
  match filter_isActive f with
  | Some b => bool_decide (isActive p = Some b)
  | None => true
  end
  && match filter_isPopular f with
     | Some b => bool_decide (isPopular p = Some b)
     | None => true
     end.

(** The store's order on a sort key: a path without a value comes before
    every number. *)
Definition key_leb (a b : option Q) : bool :=
  match a, b with
  | None, _ => true
  | Some _, None => false
  | Some x, Some y => Qle_bool x y
  end.

Definition key_eqb (a b : option Q) : bool :=
  match a, b with
  | None, None => true
  | Some x, Some y => Qeq_bool x y
  | _, _ => false
  end.

(** [sortOrder] ascending, then [price] ascending. *)
Definition doc_leb (d1 d2 : ObjectId * Plan) : bool :=
  if key_eqb (sortOrder d1.2) (sortOrder d2.2)
  then key_leb (price d1.2) (price d2.2)
  else key_leb (sortOrder d1.2) (sortOrder d2.2).

Definition doc_le (d1 d2 : ObjectId * Plan) : Prop := Is_true (doc_leb d1 d2).

#[global] Instance doc_le_dec d1 d2 : Decision (doc_le d1 d2).
Proof. unfold doc_le. apply _. Defined.

Definition find (f : Filter) (db : gmap ObjectId Plan) : list (ObjectId * Plan) :=
  filter (λ d, Is_true (matches f d.2)) (map_to_list db).

Definition sort (docs : list (ObjectId * Plan)) : list (ObjectId * Plan) :=
  merge_sort doc_le docs.

(** ** Responses: a status and the keys of the JSON body, in order *)

Inductive rvalue :=
| RBool (b : bool)
| RStr (s : string)
| RNum (n : nat)
| RDoc (d : ObjectId * Plan)
| RDocs (l : list (ObjectId * Plan))
| RFeatures (fs : option (list Feature.t)) (ls : option Limits).

Record response := {
  status : nat;
  json : list (string * rvalue)
}.

(** [res.status(code).json({ success: false, error: msg })] *)
Definition failure (code : nat) (msg : string) : response :=
  {| status := code; json := [("success", RBool false); ("error", RStr msg)] |}.

Definition set_isActive (b : bool) (p : Plan) : Plan :=
  {| name := name p; description := description p; price := price p;
     currency := currency p; interval := interval p; features := features p;
     limits := limits p; stripePriceId := stripePriceId p;
     stripeProductId := stripeProductId p; isActive := Some b;
     isPopular := isPopular p; sortOrder := sortOrder p;
     createdAt := createdAt p; updatedAt := updatedAt p |}.

(** ** The handlers *)

Section Handlers.
Variable P : Platform.

(** [GET /api/plans] (lines 91-114) *)
Definition get_plans (query : gmap string jsval) (db : gmap ObjectId Plan)
    : response :=
  let active := prop query "active" in
  let popular := prop query "popular" in
  let filter := {| filter_isActive := None; filter_isPopular := None |} in
  let filter :=
    if is_string "true" active
    then {| filter_isActive := Some true;
            filter_isPopular := filter_isPopular filter |}
    else filter in
  let filter :=
    if is_string "true" popular
    then {| filter_isActive := filter_isActive filter;
            filter_isPopular := Some true |}
    else filter in
  let plans := sort (find filter db) in
  {| status := 200;
     json := [("success", RBool true); ("data", RDocs plans);
              ("count", RNum (length plans))] |}.

(** [GET /api/plans/:id] (lines 117-139) *)
Definition get_plan (id : string) (db : gmap ObjectId Plan) : response :=
  match findById P id db with
  | Ok None => failure 404 "Plan not found"
  | Ok (Some plan) =>
      {| status := 200;
         json := [("success", RBool true); ("data", RDoc plan)] |}
  | Throw _ => failure 500 "Failed to fetch plan"
  end.

(** [POST /api/plans] (lines 142-192); [oid] is the [_id] generated for
    the new document. *)
Definition post_plans (now : Z) (oid : ObjectId) (body : gmap string jsval)
    (db : gmap ObjectId Plan) : response * gmap ObjectId Plan :=
  let name := prop body "name" in
  let description := prop body "description" in
  let price := prop body "price" in
  let currency := prop body "currency" in
  let interval := prop body "interval" in
  let features := prop body "features" in
  let limits := prop body "limits" in
  let stripePriceId := prop body "stripePriceId" in
  let stripeProductId := prop body "stripeProductId" in
  let isPopular := prop body "isPopular" in
  let sortOrder := prop body "sortOrder" in
  if negb (truthy name) || is_undefined price then
    (failure 400 "Plan name and price are required", db)
  else
    match
      plan ← Plan_new P now
        {[ "name" := name;
           "description" := description;
           "price" := price;
           "currency" := js_or currency (JStr "USD");
           "interval" := js_or interval (JStr "monthly");
           "features" := js_or features (JArr []);
           "limits" := js_or limits (JObj ∅);
           "stripePriceId" := stripePriceId;
           "stripeProductId" := stripeProductId;
           "isPopular" := js_or isPopular (JBool false);
           "sortOrder" := js_or sortOrder (JNum 0) ]};
      db' ← save true oid plan db;
      mret (plan, db')
    with
    | Ok (plan, db') =>
        ({| status := 201;
            json := [("success", RBool true); ("data", RDoc (oid, plan))] |},
         db')
    | Throw _ => (failure 500 "Failed to create plan", db)
    end.

(** [PUT /api/plans/:id] (lines 195-250) *)
Definition put_plan (now : Z) (id : string) (body : gmap string jsval)
    (db : gmap ObjectId Plan) : response * gmap ObjectId Plan :=
  let name := prop body "name" in
  let description := prop body "description" in
  let price := prop body "price" in
  let currency := prop body "currency" in
  let interval := prop body "interval" in
  let features := prop body "features" in
  let limits := prop body "limits" in
  let stripePriceId := prop body "stripePriceId" in
  let stripeProductId := prop body "stripeProductId" in
  let isActive := prop body "isActive" in
  let isPopular := prop body "isPopular" in
  let sortOrder := prop body "sortOrder" in
  match
    findByIdAndUpdate P id
      {[ "name" := name;
         "description" := description;
         "price" := price;
         "currency" := currency;
         "interval" := interval;
         "features" := features;
         "limits" := limits;
         "stripePriceId" := stripePriceId;
         "stripeProductId" := stripeProductId;
         "isActive" := isActive;
         "isPopular" := isPopular;
         "sortOrder" := sortOrder;
         "updatedAt" := JDate now ]}
      db
  with
  | Ok (None, _) => (failure 404 "Plan not found", db)
  | Ok (Some plan, db') =>
      ({| status := 200;
          json := [("success", RBool true); ("data", RDoc plan)] |}, db')
  | Throw _ => (failure 500 "Failed to update plan", db)
  end.

(** [DELETE /api/plans/:id] (lines 253-279) *)
Definition delete_plan (id : string) (db : gmap ObjectId Plan)
    : response * gmap ObjectId Plan :=
  match
    found ← findById P id db;
    match found with
    | None => mret (failure 404 "Plan not found", db)
    | Some (oid, plan) =>
        (* Soft delete *)
        let plan := set_isActive false plan in
        db' ← save false oid plan db;
        mret ({| status := 200;
                 json := [("success", RBool true);
                          ("message", RStr "Plan deleted successfully")] |},
              db')
    end
  with
  | Ok r => r
  | Throw _ => (failure 500 "Failed to delete plan", db)
  end.

(** [GET /api/plans/:id/features] (lines 282-307) *)
Definition get_plan_features (id : string) (db : gmap ObjectId Plan)
    : response :=
  match findById P id db with
  | Ok None => failure 404 "Plan not found"
  | Ok (Some (_, plan)) =>
      {| status := 200;
         json := [("success", RBool true);
                  ("data", RFeatures (features plan) (limits plan))] |}
  | Throw _ => failure 500 "Failed to fetch plan features"
  end.

End Handlers.

(** ** Reading a response *)

(** The value of a key of the JSON body. *)
Definition field (k : string) (r : response) : option rvalue :=
  snd <$> List.find (λ kv, String.eqb kv.1 k) (json r).

(** The keys of the JSON body. *)
Definition keys (r : response) : list string := (json r).*1.

(** The documents of a list response. *)
Definition listed (r : response) : list (ObjectId * Plan) :=
  match field "data" r with
  | Some (RDocs l) => l
  | _ => []
  end.

(** ** The keys an update request can carry *)

Inductive PlanKey :=
| Kname | Kdescription | Kprice | Kcurrency | Kinterval | Kfeatures | Klimits
| KstripePriceId | KstripeProductId | KisActive | KisPopular | KsortOrder.

Definition key_string (k : PlanKey) : string :=
  match k with
  | Kname => "name"
  | Kdescription => "description"
  | Kprice => "price"
  | Kcurrency => "currency"
  | Kinterval => "interval"
  | Kfeatures => "features"
  | Klimits => "limits"
  | KstripePriceId => "stripePriceId"
  | KstripeProductId => "stripeProductId"
  | KisActive => "isActive"
  | KisPopular => "isPopular"
  | KsortOrder => "sortOrder"
  end.

(** The path of a stored document holds no value (null or absent). *)
Definition unset (k : PlanKey) (p : Plan) : Prop :=
  match k with
  | Kname => name p = None
  | Kdescription => description p = None
  | Kprice => price p = None
  | Kcurrency => currency p = None
  | Kinterval => interval p = None
  | Kfeatures => features p = None
  | Klimits => limits p = None
  | KstripePriceId => stripePriceId p = None
  | KstripeProductId => stripeProductId p = None
  | KisActive => isActive p = None
  | KisPopular => isPopular p = None
  | KsortOrder => sortOrder p = None
  end.

(** Two stored documents agree on a path. *)
Definition same_at (k : PlanKey) (p p' : Plan) : Prop :=
  match k with
  | Kname => name p = name p'
  | Kdescription => description p = description p'
  | Kprice => price p = price p'
  | Kcurrency => currency p = currency p'
  | Kinterval => interval p = interval p'
  | Kfeatures => features p = features p'
  | Klimits => limits p = limits p'
  | KstripePriceId => stripePriceId p = stripePriceId p'
  | KstripeProductId => stripeProductId p = stripeProductId p'
  | KisActive => isActive p = isActive p'
  | KisPopular => isPopular p = isPopular p'
  | KsortOrder => sortOrder p = sortOrder p'
  end.

(** ** The order of a listing, as propositions *)

Definition key_le (a b : option Q) : Prop :=
  match a, b with
  | None, _ => True
  | Some _, None => False
  | Some x, Some y => (x <= y)%Q
  end.

Definition key_eq (a b : option Q) : Prop :=
  match a, b with
  | None, None => True
  | Some x, Some y => (x == y)%Q
  | _, _ => False
  end.

(** ** Create payloads that follow the schema

    Every key the create handler reads is either left out or holds a value of
    the type the schema declares for it: a non-empty string [name], a number
    [price], an [interval] among the allowed ones. *)

Definition opt (ok : jsval -> bool) (v : jsval) : bool :=
  match v with
  | JUndefined => true
  | _ => ok v
  end.

Definition a_string (v : jsval) : bool :=
  match v with JStr _ => true | _ => false end.

Definition a_number (v : jsval) : bool :=
  match v with JNum _ => true | _ => false end.

Definition a_boolean (v : jsval) : bool :=
  match v with JBool _ => true | _ => false end.

Definition a_feature (v : jsval) : bool :=
  match v with
  | JObj o =>
      opt a_string (prop o "name") && opt a_boolean (prop o "included")
      && opt a_number (prop o "limit") && opt a_string (prop o "description")
  | _ => false
  end.

Definition a_features (v : jsval) : bool :=
  match v with JArr l => forallb a_feature l | _ => false end.

Definition a_limits (v : jsval) : bool :=
  match v with
  | JObj o =>
      opt a_number (prop o "franchises") && opt a_number (prop o "forms")
      && opt a_number (prop o "submissions") && opt a_number (prop o "staff")
      && opt a_number (prop o "storage") && opt a_number (prop o "apiCalls")
  | _ => false
  end.

Definition an_interval (v : jsval) : bool :=
  match v with JStr s => bool_decide (s ∈ interval_enum) | _ => false end.

Definition a_name (v : jsval) : bool :=
  match v with JStr s => negb (String.eqb s "") | _ => false end.

Definition valid_create_body (body : gmap string jsval) : bool :=
  a_name (prop body "name")
  && a_number (prop body "price")
  && opt a_string (prop body "description")
  && opt a_string (prop body "currency")
  && opt an_interval (prop body "interval")
  && opt a_features (prop body "features")
  && opt a_limits (prop body "limits")
  && opt a_string (prop body "stripePriceId")
  && opt a_string (prop body "stripeProductId")
  && opt a_boolean (prop body "isPopular")
  && opt a_number (prop body "sortOrder").

(** The body gives no value for [limits.k]: it has no [limits] object, or
    the object has no key [k]. *)
Definition limit_omitted (body : gmap string jsval) (k : string) : Prop :=
  match prop body "limits" with
  | JObj o => o !! k = None
  | _ => True
  end.

(** The update object the [PUT] handler passes to [findByIdAndUpdate]. *)
Definition update_of (now : Z) (body : gmap string jsval) : gmap string jsval :=
  {[ "name" := prop body "name";
     "description" := prop body "description";
     "price" := prop body "price";
     "currency" := prop body "currency";
     "interval" := prop body "interval";
     "features" := prop body "features";
     "limits" := prop body "limits";
     "stripePriceId" := prop body "stripePriceId";
     "stripeProductId" := prop body "stripeProductId";
     "isActive" := prop body "isActive";
     "isPopular" := prop body "isPopular";
     "sortOrder" := prop body "sortOrder";
     "updatedAt" := JDate now ]}.

(** The filter object the list handler builds from the query string. *)
Definition filter_of (query : gmap string jsval) : Filter :=
  {| filter_isActive :=
       if is_string "true" (prop query "active") then Some true else None;
     filter_isPopular :=
       if is_string "true" (prop query "popular") then Some true else None |}.

(** The object the [POST] handler passes to [new Plan]. *)
Definition create_of (body : gmap string jsval) : gmap string jsval :=
  {[ "name" := prop body "name";
     "description" := prop body "description";
     "price" := prop body "price";
     "currency" := js_or (prop body "currency") (JStr "USD");
     "interval" := js_or (prop body "interval") (JStr "monthly");
     "features" := js_or (prop body "features") (JArr []);
     "limits" := js_or (prop body "limits") (JObj ∅);
     "stripePriceId" := prop body "stripePriceId";
     "stripeProductId" := prop body "stripeProductId";
     "isPopular" := js_or (prop body "isPopular") (JBool false);
     "sortOrder" := js_or (prop body "sortOrder") (JNum 0) ]}.

(** Every stored record passes the validators of the schema. *)
Definition valid_db (db : gmap ObjectId Plan) : Prop :=
  forall oid p, db !! oid = Some p -> validate p = true.

(** The fallback route (lines 318-324) and the error middleware (lines
    309-316). *)
Definition route_not_found : response := failure 404 "Route not found".

Definition unhandled_error : response := failure 500 "Internal server error".

(** The failure envelope: [{ success: false, error: <message> }] with a
    client or server error status of the service. *)
Definition is_failure (r : response) : Prop :=
  keys r = ["success"; "error"]
  /\ field "success" r = Some (RBool false)
  /\ (status r = 400 \/ status r = 404 \/ status r = 500).

(** ** Two platforms to run the handlers on

    Identifiers are the 24 hexadecimal digits of an ObjectId. The number and
    date conversions cover whole numbers written in decimal; the runs below
    reach none of them, every value they send has the type of its path.
    [mongoose false] writes [undefined] as null, [mongoose true] drops it. *)

Definition hex_digit (c : ascii) : option N :=
  let n := N_of_ascii c in
  if ((48 <=? n) && (n <=? 57))%N then Some (n - 48)%N
  else if ((97 <=? n) && (n <=? 102))%N then Some (n - 87)%N
  else if ((65 <=? n) && (n <=? 70))%N then Some (n - 55)%N
  else None.

Fixpoint hex_value (acc : N) (s : string) : option N :=
  match s with
  | EmptyString => Some acc
  | String c s' => d ← hex_digit c; hex_value (16 * acc + d)%N s'
  end.

Definition hex24 (s : string) : option ObjectId :=
  if (String.length s =? 24)%nat then hex_value 0 s else None.

Definition mongoose (omit : bool) : Platform :=
  {| omitUndefined := omit;
     castObjectId := hex24;
     Number_of_string := λ s, inject_Z ∘ Z.of_int <$> NilZero.int_of_string s;
     Number_toString := λ q,
       NilZero.string_of_int (Z.to_int (Qnum q / Zpos (Qden q)));
     Date_toString := λ t, NilZero.string_of_int (Z.to_int t) |}.

(** ** Sample requests

    One plan created at time 1000, a second one at time 1500, and the bodies
    and identifiers of the requests the examples send. *)

Definition id1 : string := "507f1f77bcf86cd799439011".
Definition oid1 : ObjectId := 24912482966938930280208240657%N.
Definition oid2 : ObjectId := 24912482966938930280208240658%N.
Definition bad_id : string := "not-an-id".

Definition basic : gmap string jsval :=
  {[ "name" := JStr "Basic"; "price" := JNum (999 # 100) ]}.

Definition pro : gmap string jsval :=
  {[ "name" := JStr "Pro"; "price" := JNum 29; "sortOrder" := JNum 1;
     "isPopular" := JBool true ]}.

Definition unnamed : gmap string jsval :=
  {[ "name" := JStr ""; "price" := JNum 5 ]}.

Definition null_price : gmap string jsval :=
  {[ "name" := JStr "Pro"; "price" := JNull ]}.

Definition weekly : gmap string jsval :=
  {[ "name" := JStr "Pro"; "price" := JNum 5; "interval" := JStr "weekly" ]}.

Definition price_only : gmap string jsval := {[ "price" := JNum 50 ]}.

Definition null_name : gmap string jsval :=
  {[ "name" := JNull; "price" := JNum 50 ]}.

Definition active_only : gmap string jsval := {[ "active" := JStr "true" ]}.

Definition active_false : gmap string jsval := {[ "active" := JStr "false" ]}.

Definition default_limits : Limits :=
  {| franchises := Some 1%Q; forms := Some 5%Q; submissions := Some 100%Q;
     staff := Some 5%Q; storage := Some 1024%Q; apiCalls := Some 1000%Q |}.

(** The record [POST basic] creates at time 1000. *)
Definition plan1 : Plan :=
  {| name := Some "Basic"; description := None; price := Some (999 # 100);
     currency := Some "USD"; interval := Some "monthly"; features := Some [];
     limits := Some default_limits; stripePriceId := None;
     stripeProductId := None; isActive := Some true; isPopular := Some false;
     sortOrder := Some 0%Q; createdAt := Some 1000%Z;
     updatedAt := Some 1000%Z |}.

(** The record [POST pro] creates at time 1500. *)
Definition plan2 : Plan :=
  {| name := Some "Pro"; description := None; price := Some 29%Q;
     currency := Some "USD"; interval := Some "monthly"; features := Some [];
     limits := Some default_limits; stripePriceId := None;
     stripeProductId := None; isActive := Some true; isPopular := Some true;
     sortOrder := Some 1%Q; createdAt := Some 1500%Z;
     updatedAt := Some 1500%Z |}.

(** A well-formed identifier that no sample record has. *)
Definition unknown_id : string := "507f1f77bcf86cd7994390ff".

(** A create body that sends falsy values for defaulted keys. *)
Definition falsy_body : gmap string jsval :=
  {[ "name" := JStr "Free"; "price" := JNum 0; "currency" := JStr "";
     "sortOrder" := JNum 0; "isPopular" := JNull; "limits" := JNull ]}.

(** An update body that switches a plan back on. *)
Definition reactivate : gmap string jsval :=
  {[ "name" := JStr "Basic"; "price" := JNum (999 # 100);
     "isActive" := JBool true ]}.

(** The collection after [POST basic]. *)
Definition db1 : gmap ObjectId Plan :=
  (post_plans (mongoose false) 1000 oid1 basic ∅).2.

(** The collection after [POST basic] and [POST pro]. *)
Definition db2 : gmap ObjectId Plan :=
  (post_plans (mongoose false) 1500 oid2 pro db1).2.

(** The collection after [POST basic] and a [PUT] of [body] at time 2000,
    on either platform. *)
Definition updated (omit : bool) (body : gmap string jsval)
    : gmap ObjectId Plan :=
  (put_plan (mongoose omit) 2000 id1 body db1).2.

(** The collection after [POST basic] and [DELETE]. *)
Definition deleted : gmap ObjectId Plan :=
  (delete_plan (mongoose false) id1 db1).2.

(** * Properties *)

(** ** The exception monad and the JS operators *)

Lemma bind_Ok {A B} (m : result A) (f : A -> result B) (b : B) :
  m ≫= f = Ok b -> exists a, m = Ok a /\ f a = Ok b.
Proof. destruct m as [a|e]; simpl; [eauto | discriminate]. Qed.

Lemma prop_absent (o : gmap string jsval) (k : string) :
  o !! k = None -> prop o k = JUndefined.
Proof. unfold prop. by intros ->. Qed.

Lemma prop_insert_ne (o : gmap string jsval) (k k' : string) (v : jsval) :
  k <> k' -> prop (<[k := v]> o) k' = prop o k'.
Proof. intros Hk. unfold prop. by rewrite lookup_insert_ne. Qed.

Lemma is_undefined_true (v : jsval) : is_undefined v = true <-> v = JUndefined.
Proof. destruct v; simpl; split; congruence. Qed.

Lemma is_string_true (lit : string) (v : jsval) :
  is_string lit v = true <-> v = JStr lit.
Proof.
  destruct v; simpl; split; try congruence.
  - by intros ->%String.eqb_eq.
  - intros [= ->]. apply String.eqb_refl.
Qed.

Section Properties.
Variable P : Platform.

(** ** Lookups by identifier *)

Lemma findById_malformed (id : string) (db : gmap ObjectId Plan) :
  castObjectId P id = None -> findById P id db = Throw CastError.
Proof. intros H. unfold findById. by rewrite H. Qed.

Lemma findById_wellformed (id : string) (oid : ObjectId)
    (db : gmap ObjectId Plan) :
  castObjectId P id = Some oid ->
  findById P id db = Ok (pair oid <$> db !! oid).
Proof. intros H. unfold findById. by rewrite H. Qed.

(** C3, as amended: an identifier the mapper cannot cast makes [findById]
    and [findByIdAndUpdate] throw, and each of the four handlers answers
    500 with its own failure message, not 404; nothing is written. *)
Theorem malformed_id_500 (now : Z) (id : string) (body : gmap string jsval)
    (db : gmap ObjectId Plan) :
  castObjectId P id = None ->
  get_plan P id db = failure 500 "Failed to fetch plan"
  /\ put_plan P now id body db = (failure 500 "Failed to update plan", db)
  /\ delete_plan P id db = (failure 500 "Failed to delete plan", db)
  /\ get_plan_features P id db = failure 500 "Failed to fetch plan features".
Proof.
  intros H.
  unfold get_plan, put_plan, delete_plan, get_plan_features, findByIdAndUpdate.
  rewrite (findById_malformed _ _ H), H. done.
Qed.

(** A well-formed identifier that matches no record is the 404 of the
    three handlers that only look the record up. *)
Lemma unknown_id_404 (id : string) (oid : ObjectId) (db : gmap ObjectId Plan) :
  castObjectId P id = Some oid -> db !! oid = None ->
  get_plan P id db = failure 404 "Plan not found"
  /\ delete_plan P id db = (failure 404 "Plan not found", db)
  /\ get_plan_features P id db = failure 404 "Plan not found".
Proof.
  intros H L. unfold get_plan, delete_plan, get_plan_features.
  rewrite (findById_wellformed _ _ _ H), L. done.
Qed.

(** ** Create *)

(** The three ways out of the create handler. *)
Lemma post_plans_cases (now : Z) (oid : ObjectId) (body : gmap string jsval)
    (db : gmap ObjectId Plan) :
  let guard :=
    negb (truthy (prop body "name")) || is_undefined (prop body "price") in
  let r := post_plans P now oid body db in
  (r = (failure 400 "Plan name and price are required", db) /\ guard = true)
  \/ (r = (failure 500 "Failed to create plan", db) /\ guard = false)
  \/ (exists p,
        r = ({| status := 201;
                json := [("success", RBool true); ("data", RDoc (oid, p))] |},
             <[oid := p]> db)
        /\ guard = false /\ db !! oid = None /\ validate p = true
        /\ isActive p = Some true).
Proof.
  intros guard r. subst guard r. unfold post_plans.
  destruct (negb (truthy (prop body "name"))
            || is_undefined (prop body "price")) eqn:G; [by left|].
  right.
  match goal with
  | |- context [Plan_new P now ?o] =>
      destruct (Plan_new P now o) as [p|e] eqn:E
  end; [|by left].
  simpl. unfold save.
  destruct (validate p) eqn:V; [|by left].
  destruct (db !! oid) eqn:L; [by left|].
  right. exists p. repeat split; try done.
  unfold Plan_new in E.
  repeat (apply bind_Ok in E as (? & ? & E)).
  injection E as <-. simpl.
  match goal with
  | H : construct (Some true) _ = Ok ?x |- _ =>
      vm_compute in H; by injection H as <-
  end.
Qed.

(** C6, as amended: the handler answers 400 exactly when [name] is falsy
    (absent, null, false, 0 or the empty string) or [price] is undefined;
    a price of zero passes; the 400 carries the message and, like every
    answer other than 201, leaves the collection as it was. *)
Theorem post_plans_rejects (now : Z) (oid : ObjectId)
    (body : gmap string jsval) (db : gmap ObjectId Plan) :
  let r := post_plans P now oid body db in
  (status r.1 = 400 <->
     truthy (prop body "name") = false \/ prop body "price" = JUndefined)
  /\ (status r.1 = 400 ->
        r = (failure 400 "Plan name and price are required", db))
  /\ (truthy (prop body "name") = true -> prop body "price" = JNum 0 ->
        status r.1 <> 400)
  /\ (status r.1 <> 201 -> r.2 = db).
Proof.
  intros r.
  assert (G : negb (truthy (prop body "name"))
              || is_undefined (prop body "price") = true
              <-> truthy (prop body "name") = false
                  \/ prop body "price" = JUndefined).
  { rewrite orb_true_iff, negb_true_iff, is_undefined_true. done. }
  destruct (post_plans_cases now oid body db)
    as [[E g]|[[E g]|(p & E & g & _)]];
    fold r in E; rewrite E; simpl.
  - split; [split; [intros _; by apply G | done]|].
    split; [done|]. split; [|done].
    intros Hn Hp _. apply G in g as [g|g]; congruence.
  - split; [split; [done | intros Hc; apply G in Hc; congruence]|].
    repeat split; done.
  - split; [split; [done | intros Hc; apply G in Hc; congruence]|].
    repeat split; done.
Qed.

(** C10: the create handler does not read [isActive] from the body, so
    the answer is the same whatever the body holds there, and a created
    plan is active, in the response and in the collection. *)
Theorem post_plans_ignores_isActive (now : Z) (oid : ObjectId)
    (body : gmap string jsval) (db : gmap ObjectId Plan) (v : jsval) :
  post_plans P now oid (<["isActive" := v]> body) db
  = post_plans P now oid body db
  /\ (status (post_plans P now oid body db).1 = 201 ->
      exists p,
        post_plans P now oid body db
        = ({| status := 201;
              json := [("success", RBool true); ("data", RDoc (oid, p))] |},
           <[oid := p]> db)
        /\ isActive p = Some true).
Proof.
  split.
  - unfold post_plans. rewrite !prop_insert_ne by done. reflexivity.
  - destruct (post_plans_cases now oid body db)
      as [[E g]|[[E g]|(p & E & _ & _ & _ & A)]];
      rewrite E; simpl; try done.
    intros _. by exists p.
Qed.

(** ** Update *)

Lemma put_plan_update (now : Z) (id : string) (body : gmap string jsval)
    (db : gmap ObjectId Plan) :
  put_plan P now id body db
  = match findByIdAndUpdate P id (update_of now body) db with
    | Ok (None, _) => (failure 404 "Plan not found", db)
    | Ok (Some plan, db') =>
        ({| status := 200;
            json := [("success", RBool true); ("data", RDoc plan)] |}, db')
    | Throw _ => (failure 500 "Failed to update plan", db)
    end.
Proof. reflexivity. Qed.

Lemma update_of_key (now : Z) (body : gmap string jsval) (k : PlanKey) :
  update_of now body !! key_string k = Some (prop body (key_string k)).
Proof. destruct k; reflexivity. Qed.

(** The ways out of the update handler for a well-formed identifier. *)
Lemma put_plan_cases (now : Z) (id : string) (oid : ObjectId)
    (body : gmap string jsval) (db : gmap ObjectId Plan) :
  castObjectId P id = Some oid ->
  (put_plan P now id body db = (failure 500 "Failed to update plan", db)
   /\ exists e, castUpdate P (update_of now body) = Throw e)
  \/ (exists change,
        castUpdate P (update_of now body) = Ok change
        /\ put_plan P now id body db
           = match db !! oid with
             | None => (failure 404 "Plan not found", db)
             | Some old =>
                 ({| status := 200;
                     json := [("success", RBool true);
                              ("data", RDoc (oid, change old))] |},
                  <[oid := change old]> db)
             end).
Proof.
  intros H. rewrite put_plan_update. unfold findByIdAndUpdate. rewrite H.
  destruct (castUpdate P (update_of now body)) as [change|e] eqn:E.
  - right. exists change. split; [done|]. simpl. by destruct (db !! oid).
  - left. split; [done | by exists e].
Qed.

(** What a successful cast of an update does to each path. *)
Lemma castUpdate_paths (upd : gmap string jsval) (change : Plan -> Plan) :
  castUpdate P upd = Ok change ->
  (exists f, castPath P (castString P) upd "name" = Ok f
             /\ forall p, name (change p) = f (name p))
  /\ (exists f, castPath P (castString P) upd "description" = Ok f
             /\ forall p, description (change p) = f (description p))
  /\ (exists f, castPath P (castNumber P) upd "price" = Ok f
             /\ forall p, price (change p) = f (price p))
  /\ (exists f, castPath P (castString P) upd "currency" = Ok f
             /\ forall p, currency (change p) = f (currency p))
  /\ (exists f, castPath P (castString P) upd "interval" = Ok f
             /\ forall p, interval (change p) = f (interval p))
  /\ (exists f, castPath P (castFeatures P) upd "features" = Ok f
             /\ forall p, features (change p) = f (features p))
  /\ (exists f, castPath P (castLimits P) upd "limits" = Ok f
             /\ forall p, limits (change p) = f (limits p))
  /\ (exists f, castPath P (castString P) upd "stripePriceId" = Ok f
             /\ forall p, stripePriceId (change p) = f (stripePriceId p))
  /\ (exists f, castPath P (castString P) upd "stripeProductId" = Ok f
             /\ forall p, stripeProductId (change p) = f (stripeProductId p))
  /\ (exists f, castPath P castBoolean upd "isActive" = Ok f
             /\ forall p, isActive (change p) = f (isActive p))
  /\ (exists f, castPath P castBoolean upd "isPopular" = Ok f
             /\ forall p, isPopular (change p) = f (isPopular p))
  /\ (exists f, castPath P (castNumber P) upd "sortOrder" = Ok f
             /\ forall p, sortOrder (change p) = f (sortOrder p))
  /\ (exists f, castPath P castDate upd "createdAt" = Ok f
             /\ forall p, createdAt (change p) = f (createdAt p))
  /\ (exists f, castPath P castDate upd "updatedAt" = Ok f
             /\ forall p, updatedAt (change p) = f (updatedAt p)).
Proof.
  intros E. unfold castUpdate in E.
  repeat (apply bind_Ok in E as (? & ? & E)).
  injection E as <-.
  repeat split; eexists; (split; [eassumption | reflexivity]).
Qed.

Lemma castPath_undefined {A} (cast : jsval -> casted A)
    (upd : gmap string jsval) (k : string) (f : option A -> option A) :
  upd !! k = Some JUndefined -> cast JUndefined = CastUndefined ->
  castPath P cast upd k = Ok f ->
  forall old, f old = if omitUndefined P then old else None.
Proof.
  intros Hk Hc. unfold castPath. rewrite Hk, Hc. by intros [= <-].
Qed.

Lemma castPath_missing {A} (cast : jsval -> casted A)
    (upd : gmap string jsval) (k : string) (f : option A -> option A) :
  upd !! k = None -> castPath P cast upd k = Ok f -> forall old, f old = old.
Proof. intros Hk. unfold castPath. rewrite Hk. by intros [= <-]. Qed.

Lemma castPath_value {A} (cast : jsval -> casted A)
    (upd : gmap string jsval) (k : string) (v : jsval) (a : A)
    (f : option A -> option A) :
  upd !! k = Some v -> cast v = CastTo a ->
  castPath P cast upd k = Ok f -> forall old, f old = Some a.
Proof. intros Hk Hc. unfold castPath. rewrite Hk, Hc. by intros [= <-]. Qed.

(** A path whose key the body leaves out, after a successful cast of the
    handler's update object: null when the platform writes [undefined],
    the old value when it drops it. *)
Lemma update_of_absent (now : Z) (body : gmap string jsval)
    (change : Plan -> Plan) (k : PlanKey) (old : Plan) :
  castUpdate P (update_of now body) = Ok change ->
  body !! key_string k = None ->
  if omitUndefined P then same_at k (change old) old
  else unset k (change old).
Proof.
  intros E Hk. apply castUpdate_paths in E.
  pose proof (update_of_key now body k) as U.
  rewrite (prop_absent _ _ Hk) in U.
  destruct E as ((f1 & E1 & F1) & (f2 & E2 & F2) & (f3 & E3 & F3)
    & (f4 & E4 & F4) & (f5 & E5 & F5) & (f6 & E6 & F6) & (f7 & E7 & F7)
    & (f8 & E8 & F8) & (f9 & E9 & F9) & (f10 & E10 & F10)
    & (f11 & E11 & F11) & (f12 & E12 & F12) & _).
  destruct k; unfold same_at, unset;
    [ rewrite F1, (castPath_undefined _ _ _ _ U eq_refl E1)
    | rewrite F2, (castPath_undefined _ _ _ _ U eq_refl E2)
    | rewrite F3, (castPath_undefined _ _ _ _ U eq_refl E3)
    | rewrite F4, (castPath_undefined _ _ _ _ U eq_refl E4)
    | rewrite F5, (castPath_undefined _ _ _ _ U eq_refl E5)
    | rewrite F6, (castPath_undefined _ _ _ _ U eq_refl E6)
    | rewrite F7, (castPath_undefined _ _ _ _ U eq_refl E7)
    | rewrite F8, (castPath_undefined _ _ _ _ U eq_refl E8)
    | rewrite F9, (castPath_undefined _ _ _ _ U eq_refl E9)
    | rewrite F10, (castPath_undefined _ _ _ _ U eq_refl E10)
    | rewrite F11, (castPath_undefined _ _ _ _ U eq_refl E11)
    | rewrite F12, (castPath_undefined _ _ _ _ U eq_refl E12) ];
    by destruct (omitUndefined P).
Qed.

(** The timestamps after a successful cast of the handler's update
    object: [updatedAt] is the handler's clock reading, [createdAt] is
    not touched. *)
Lemma update_of_timestamps (now : Z) (body : gmap string jsval)
    (change : Plan -> Plan) (old : Plan) :
  castUpdate P (update_of now body) = Ok change ->
  updatedAt (change old) = Some now
  /\ createdAt (change old) = createdAt old.
Proof.
  intros E. apply castUpdate_paths in E.
  do 12 (destruct E as (_ & E)).
  destruct E as ((f13 & E13 & F13) & (f14 & E14 & F14)).
  rewrite F13, F14. split.
  - by apply (castPath_value castDate (update_of now body) "updatedAt"
                (JDate now)).
  - by apply (castPath_missing castDate (update_of now body) "createdAt").
Qed.



(** The same update on a platform that drops [undefined] from an update:
    a key the body leaves out keeps its stored value. *)
Lemma put_plan_partial_merge (now : Z) (id : string) (oid : ObjectId)
    (body : gmap string jsval) (db : gmap ObjectId Plan) (old : Plan) :
  omitUndefined P = true ->
  castObjectId P id = Some oid ->
  db !! oid = Some old ->
  put_plan P now id body db = (failure 500 "Failed to update plan", db)
  \/ exists new,
       put_plan P now id body db
       = ({| status := 200;
             json := [("success", RBool true); ("data", RDoc (oid, new))] |},
          <[oid := new]> db)
       /\ forall k, body !! key_string k = None -> same_at k new old.
Proof.
  intros Hw Hid Hdb.
  destruct (put_plan_cases now id oid body db Hid)
    as [[E _]|(change & C & E)]; [by left|].
  right. exists (change old). rewrite E, Hdb. split; [done|].
  intros k Hk. pose proof (update_of_absent now body change k old C Hk) as U.
  by rewrite Hw in U.
Qed.

(** ** Listing *)

Lemma get_plans_listed (query : gmap string jsval) (db : gmap ObjectId Plan) :
  get_plans query db
  = {| status := 200;
       json := [("success", RBool true);
                ("data", RDocs (sort (find (filter_of query) db)));
                ("count", RNum (length (sort (find (filter_of query) db))))] |}.
Proof.
  unfold get_plans, filter_of.
  by destruct (is_string "true" (prop query "active")),
              (is_string "true" (prop query "popular")).
Qed.

Lemma listed_get_plans (query : gmap string jsval) (db : gmap ObjectId Plan) :
  listed (get_plans query db) = sort (find (filter_of query) db).
Proof. by rewrite get_plans_listed. Qed.

(** A filter key is set by the string 'true' and by nothing else. *)
Lemma switch_on (v : jsval) (b : option bool) :
  Is_true (match (if is_string "true" v then Some true else None) with
           | Some x => bool_decide (b = Some x)
           | None => true
           end)
  <-> (v = JStr "true" -> b = Some true).
Proof.
  destruct (is_string "true" v) eqn:E.
  - apply is_string_true in E. rewrite bool_decide_spec. tauto.
  - split; [|done]. intros _ Hv. apply is_string_true in Hv. congruence.
Qed.

Lemma matches_filter_of (query : gmap string jsval) (p : Plan) :
  Is_true (matches (filter_of query) p) <->
  (prop query "active" = JStr "true" -> isActive p = Some true)
  /\ (prop query "popular" = JStr "true" -> isPopular p = Some true).
Proof.
  unfold matches, filter_of. simpl.
  by rewrite andb_True, !switch_on.
Qed.

Lemma elem_of_listed (query : gmap string jsval) (db : gmap ObjectId Plan)
    (d : ObjectId * Plan) :
  d ∈ listed (get_plans query db) <->
  db !! d.1 = Some d.2
  /\ (prop query "active" = JStr "true" -> isActive d.2 = Some true)
  /\ (prop query "popular" = JStr "true" -> isPopular d.2 = Some true).
Proof.
  rewrite listed_get_plans. unfold sort, find.
  rewrite merge_sort_Permutation, list_elem_of_filter, matches_filter_of.
  destruct d as [i p]. rewrite elem_of_map_to_list. simpl. tauto.
Qed.

Lemma NoDup_listed (query : gmap string jsval) (db : gmap ObjectId Plan) :
  NoDup (listed (get_plans query db)).
Proof.
  rewrite listed_get_plans. unfold sort, find.
  rewrite merge_sort_Permutation.
  apply NoDup_filter, NoDup_map_to_list.
Qed.

(** C9: a listing holds each stored record at most once, and holds a
    record exactly when it passes the filters that are switched on; a
    filter is switched on by the string 'true' and by nothing else. *)
Theorem get_plans_filters (query : gmap string jsval)
    (db : gmap ObjectId Plan) :
  NoDup (listed (get_plans query db))
  /\ forall d,
       d ∈ listed (get_plans query db) <->
       db !! d.1 = Some d.2
       /\ (prop query "active" = JStr "true" -> isActive d.2 = Some true)
       /\ (prop query "popular" = JStr "true" -> isPopular d.2 = Some true).
Proof. split; [apply NoDup_listed | apply elem_of_listed]. Qed.

(** ** The order of a listing *)

Lemma key_leb_le (a b : option Q) : key_leb a b = true <-> key_le a b.
Proof.
  destruct a, b; simpl; try tauto; [apply Qle_bool_iff | split; [discriminate | tauto]].
Qed.

Lemma key_eqb_eq (a b : option Q) : key_eqb a b = true <-> key_eq a b.
Proof.
  destruct a, b; simpl; try tauto; try (split; [discriminate | tauto]).
  apply Qeq_bool_iff.
Qed.

Lemma doc_le_spec (d1 d2 : ObjectId * Plan) :
  doc_le d1 d2 <->
  (key_eq (sortOrder d1.2) (sortOrder d2.2)
   /\ key_le (price d1.2) (price d2.2))
  \/ (~ key_eq (sortOrder d1.2) (sortOrder d2.2)
      /\ key_le (sortOrder d1.2) (sortOrder d2.2)).
Proof.
  unfold doc_le, doc_leb. rewrite <- key_eqb_eq, <- !key_leb_le.
  destruct (key_eqb (sortOrder d1.2) (sortOrder d2.2));
    rewrite Is_true_true.
  - split; [intros H; by left | intros [[_ H]|[H _]]; [done | by destruct H]].
  - split; [intros H; right; by split | intros [[H _]|[_ H]]; [discriminate | done]].
Qed.

#[local] Instance doc_le_total : Total doc_le.
Proof.
  intros d1 d2. rewrite !doc_le_spec.
  destruct (sortOrder d1.2) as [s1|], (sortOrder d2.2) as [s2|],
           (price d1.2) as [p1|], (price d2.2) as [p2|];
    simpl; try tauto.
  all: try (destruct (Qlt_le_dec s1 s2), (Qlt_le_dec s2 s1); try lra).
  all: try (destruct (Qlt_le_dec p1 p2)).
  all: try lra.
  all: first [ left; left; split; first [lra | tauto]; first [lra | tauto]
             | left; right; split; first [lra | tauto]; first [lra | tauto]
             | right; left; split; first [lra | tauto]; first [lra | tauto]
             | right; right; split; first [lra | tauto]; first [lra | tauto] | idtac ].
  all: try tauto.
Qed.

#[local] Instance doc_le_trans : Transitive doc_le.
Proof.
  intros d1 d2 d3. rewrite !doc_le_spec.
  destruct (sortOrder d1.2) as [s1|], (sortOrder d2.2) as [s2|],
           (sortOrder d3.2) as [s3|],
           (price d1.2) as [p1|], (price d2.2) as [p2|],
           (price d3.2) as [p3|];
    simpl; intros [[? ?]|[? ?]] [[? ?]|[? ?]]; try tauto.
  all: try (destruct (Qeq_dec s1 s3)).
  all: first [ left; split; first [lra | tauto]; first [lra | tauto]
             | right; split; first [lra | tauto]; first [lra | tauto] | idtac ].
Qed.

Lemma StronglySorted_lookup {A} (R : relation A) (l : list A)
    (i j : nat) (a b : A) :
  StronglySorted R l -> (i < j)%nat ->
  l !! i = Some a -> l !! j = Some b -> R a b.
Proof.
  intros S. revert i j. induction S as [|x l S IH F]; intros i j Hij Hi Hj.
  - by rewrite lookup_nil in Hi.
  - destruct j as [|j]; [lia|].
    destruct i as [|i]; simpl in *.
    + injection Hi as <-.
      rewrite Forall_lookup in F. by eapply F.
    + eapply IH; [|done..]. lia.
Qed.

(** C7: every listing is a 200 whose [data] is in non-decreasing order of
    [sortOrder] and, between records of equal [sortOrder], of [price] (a
    path without a value counting as smallest, as in the store); [count]
    is the length of [data], and the empty collection lists as the empty
    array. *)
Theorem get_plans_sorted (query : gmap string jsval)
    (db : gmap ObjectId Plan) :
  let r := get_plans query db in
  status r = 200
  /\ field "count" r = Some (RNum (length (listed r)))
  /\ get_plans query ∅
     = {| status := 200;
          json := [("success", RBool true); ("data", RDocs []);
                   ("count", RNum 0)] |}
  /\ forall i j a b,
       (i < j)%nat -> listed r !! i = Some a -> listed r !! j = Some b ->
       key_le (sortOrder a.2) (sortOrder b.2)
       /\ (key_eq (sortOrder a.2) (sortOrder b.2) ->
           key_le (price a.2) (price b.2)).
Proof.
  intros r. subst r. split; [by rewrite get_plans_listed|].
  split; [by rewrite get_plans_listed|].
  split.
  { rewrite get_plans_listed. unfold find.
    by rewrite map_to_list_empty. }
  intros i j a b Hij Ha Hb. rewrite listed_get_plans in Ha, Hb.
  assert (D : doc_le a b).
  { eapply StronglySorted_lookup; [|done..].
    unfold sort. apply (StronglySorted_merge_sort doc_le). }
  apply doc_le_spec in D as [[E L]|[N L]].
  - split; [|done].
    destruct (sortOrder a.2), (sortOrder b.2); simpl in *; try done. lra.
  - split; [done|]. by intros E.
Qed.

(** ** Soft delete *)

Lemma validate_set_isActive (b : bool) (p : Plan) :
  validate (set_isActive b p) = validate p.
Proof. reflexivity. Qed.

Lemma set_isActive_idem (b : bool) (p : Plan) :
  set_isActive b (set_isActive b p) = set_isActive b p.
Proof. reflexivity. Qed.

(** The delete handler on an existing record: the validators of [save]
    decide between the flag flip and a 500 that writes nothing. *)
Lemma delete_plan_found (id : string) (oid : ObjectId) (p : Plan)
    (db : gmap ObjectId Plan) :
  castObjectId P id = Some oid -> db !! oid = Some p ->
  delete_plan P id db
  = if validate p
    then ({| status := 200;
             json := [("success", RBool true);
                      ("message", RStr "Plan deleted successfully")] |},
          <[oid := set_isActive false p]> db)
    else (failure 500 "Failed to delete plan", db).
Proof.
  intros Hid Hdb. unfold delete_plan.
  rewrite (findById_wellformed _ _ _ Hid), Hdb. simpl.
  unfold save. rewrite validate_set_isActive. by destruct (validate p).
Qed.

Lemma get_plan_found (id : string) (oid : ObjectId) (p : Plan)
    (db : gmap ObjectId Plan) :
  castObjectId P id = Some oid -> db !! oid = Some p ->
  get_plan P id db
  = {| status := 200;
       json := [("success", RBool true); ("data", RDoc (oid, p))] |}.
Proof.
  intros Hid Hdb. unfold get_plan.
  by rewrite (findById_wellformed _ _ _ Hid), Hdb.
Qed.

(** C5, as amended: on an existing record that passes the validators of
    the schema, soft delete answers 200 and stores [isActive = false]; a
    second call does the same and changes nothing more; the record is still
    returned by its identifier, and no listing filtered on [active=true]
    holds it. *)
Theorem delete_plan_soft (id : string) (oid : ObjectId) (p : Plan)
    (db : gmap ObjectId Plan) :
  castObjectId P id = Some oid -> db !! oid = Some p -> validate p = true ->
  let r1 := delete_plan P id db in
  let r2 := delete_plan P id r1.2 in
  status r1.1 = 200
  /\ r1.2 = <[oid := set_isActive false p]> db
  /\ status r2.1 = 200
  /\ r2.2 = r1.2
  /\ get_plan P id r1.2
     = {| status := 200;
          json := [("success", RBool true);
                   ("data", RDoc (oid, set_isActive false p))] |}
  /\ forall query d,
       prop query "active" = JStr "true" ->
       d ∈ listed (get_plans query r1.2) -> d.1 <> oid.
Proof.
  intros Hid Hdb Hv r1 r2.
  assert (E1 : r1 = ({| status := 200;
                        json := [("success", RBool true);
                                 ("message", RStr "Plan deleted successfully")] |},
                     <[oid := set_isActive false p]> db)).
  { subst r1. by rewrite (delete_plan_found id oid p db Hid Hdb), Hv. }
  assert (L1 : r1.2 !! oid = Some (set_isActive false p)).
  { rewrite E1. simpl. apply lookup_insert_eq. }
  assert (E2 : r2 = (r1.1, r1.2)).
  { subst r2. rewrite (delete_plan_found id oid _ _ Hid L1).
    rewrite validate_set_isActive, Hv, set_isActive_idem.
    rewrite E1. simpl. by rewrite insert_insert_eq. }
  split; [by rewrite E1|]. split; [by rewrite E1|].
  split; [by rewrite E2, E1|]. split; [by rewrite E2|].
  split; [by apply get_plan_found|].
  intros query [i q] Ha Hd Hi. simpl in Hi. subst i.
  apply elem_of_listed in Hd as (Hl & Hact & _). simpl in Hl, Hact.
  rewrite L1 in Hl. injection Hl as <-. by specialize (Hact Ha).
Qed.

(** On a stored record that fails a validator, soft delete is a 500 and
    the record stays as it was, whatever [isActive] it has. *)
Lemma delete_plan_invalid (id : string) (oid : ObjectId) (p : Plan)
    (db : gmap ObjectId Plan) :
  castObjectId P id = Some oid -> db !! oid = Some p -> validate p = false ->
  delete_plan P id db = (failure 500 "Failed to delete plan", db).
Proof.
  intros Hid Hdb Hv. by rewrite (delete_plan_found id oid p db Hid Hdb), Hv.
Qed.

(** ** Timestamps *)

(** A successful create stamps both dates with the handler's clock. *)
Lemma post_plans_timestamps (now : Z) (oid : ObjectId)
    (body : gmap string jsval) (db : gmap ObjectId Plan) (p : Plan)
    (r : response) :
  post_plans P now oid body db = (r, <[oid := p]> db) -> status r = 201 ->
  createdAt p = Some now /\ updatedAt p = Some now.
Proof.
  unfold post_plans.
  destruct (negb (truthy (prop body "name"))
            || is_undefined (prop body "price")); [by intros [= <- _]|].
  match goal with
  | |- context [Plan_new P now ?o] =>
      destruct (Plan_new P now o) as [p'|e] eqn:E
  end; [|by intros [= <- _]].
  simpl. destruct (save true oid p' db) as [db'|e] eqn:S;
    simpl; [|by intros [= <- _]].
  unfold save in S. destruct (validate p'); [|done].
  destruct (db !! oid) eqn:L; [done|]. injection S as <-.
  intros [= <- Hdb] _.
  assert (p' = p) as ->.
  { apply (f_equal (λ m, m !! oid)) in Hdb.
    rewrite !lookup_insert_eq in Hdb. by injection Hdb. }
  unfold Plan_new in E.
  repeat (apply bind_Ok in E as (? & ? & E)).
  injection E as <-. simpl.
  repeat match goal with
  | H : construct (Some now) _ = Ok ?x |- _ =>
      vm_compute in H; injection H as <-
  end. done.
Qed.

(** A successful update stamps [updatedAt] with the handler's clock and
    leaves [createdAt] alone. *)
Lemma put_plan_timestamps (now : Z) (id : string) (oid : ObjectId)
    (body : gmap string jsval) (db : gmap ObjectId Plan) (old : Plan) :
  castObjectId P id = Some oid -> db !! oid = Some old ->
  status (put_plan P now id body db).1 = 200 ->
  exists new,
    (put_plan P now id body db).2 = <[oid := new]> db
    /\ updatedAt new = Some now /\ createdAt new = createdAt old.
Proof.
  intros Hid Hdb.
  destruct (put_plan_cases now id oid body db Hid)
    as [[E _]|(change & C & E)]; rewrite E; [done|].
  rewrite Hdb. simpl. intros _. exists (change old). split; [done|].
  by apply (update_of_timestamps now body change old C).
Qed.

(** Soft delete reads no clock: the record it writes has the [updatedAt]
    it had before. *)
Lemma delete_plan_updatedAt (id : string) (oid : ObjectId) (p : Plan)
    (db : gmap ObjectId Plan) :
  castObjectId P id = Some oid -> db !! oid = Some p ->
  exists p', (delete_plan P id db).2 !! oid = Some p'
             /\ updatedAt p' = updatedAt p.
Proof.
  intros Hid Hdb. rewrite (delete_plan_found id oid p db Hid Hdb).
  destruct (validate p); simpl.
  - exists (set_isActive false p). by rewrite lookup_insert_eq.
  - by exists p.
Qed.

(** ** The envelope *)

Lemma get_plan_features_found (id : string) (oid : ObjectId) (p : Plan)
    (db : gmap ObjectId Plan) :
  castObjectId P id = Some oid -> db !! oid = Some p ->
  get_plan_features P id db
  = {| status := 200;
       json := [("success", RBool true);
                ("data", RFeatures (features p) (limits p))] |}.
Proof.
  intros Hid Hdb. unfold get_plan_features.
  by rewrite (findById_wellformed _ _ _ Hid), Hdb.
Qed.

(** C8, as amended: every successful answer has [success: true] first;
    list, get, create, update and features answers carry [data], and only
    the list answer carries [count] as well; the soft-delete answer is
    [{ success: true, message: 'Plan deleted successfully' }] and has no
    [data]. *)
Theorem success_envelope (now : Z) (oid : ObjectId) (id : string)
    (query body : gmap string jsval) (db : gmap ObjectId Plan) :
  keys (get_plans query db) = ["success"; "data"; "count"]
  /\ field "success" (get_plans query db) = Some (RBool true)
  /\ (status (get_plan P id db) = 200 ->
      keys (get_plan P id db) = ["success"; "data"]
      /\ field "success" (get_plan P id db) = Some (RBool true))
  /\ (status (post_plans P now oid body db).1 = 201 ->
      keys (post_plans P now oid body db).1 = ["success"; "data"]
      /\ field "success" (post_plans P now oid body db).1 = Some (RBool true))
  /\ (status (put_plan P now id body db).1 = 200 ->
      keys (put_plan P now id body db).1 = ["success"; "data"]
      /\ field "success" (put_plan P now id body db).1 = Some (RBool true))
  /\ (status (get_plan_features P id db) = 200 ->
      keys (get_plan_features P id db) = ["success"; "data"]
      /\ field "success" (get_plan_features P id db) = Some (RBool true))
  /\ (status (delete_plan P id db).1 = 200 ->
      keys (delete_plan P id db).1 = ["success"; "message"]
      /\ field "success" (delete_plan P id db).1 = Some (RBool true)
      /\ field "message" (delete_plan P id db).1
         = Some (RStr "Plan deleted successfully")
      /\ field "data" (delete_plan P id db).1 = None).
Proof.
  split; [by rewrite get_plans_listed|].
  split; [by rewrite get_plans_listed|].
  split.
  { unfold get_plan. by destruct (findById P id db) as [[d|]|e]. }
  split.
  { destruct (post_plans_cases now oid body db)
      as [[E _]|[[E _]|(p & E & _)]]; by rewrite E. }
  split.
  { rewrite put_plan_update.
    by destruct (findByIdAndUpdate P id (update_of now body) db)
      as [[[d|] db']|e]. }
  split.
  { unfold get_plan_features.
    by destruct (findById P id db) as [[[i p]|]|e]. }
  unfold delete_plan.
  destruct (findById P id db) as [[[i p]|]|e]; simpl; try done.
  by destruct (save false i (set_isActive false p) db).
Qed.

(** ** Create: defaults *)

Lemma Plan_new_Ok (now : Z) (obj : gmap string jsval)
    (n d : option string) (pr : option Q) (c i : option string)
    (f : option (list Feature.t)) (l : option Limits) (s1 s2 : option string)
    (a po : option bool) (so : option Q) (ca ua : option Z) :
  construct None (castString P (prop obj "name")) = Ok n ->
  construct None (castString P (prop obj "description")) = Ok d ->
  construct None (castNumber P (prop obj "price")) = Ok pr ->
  construct (Some "USD") (castString P (prop obj "currency")) = Ok c ->
  construct (Some "monthly") (castString P (prop obj "interval")) = Ok i ->
  construct (Some []) (castFeatures P (prop obj "features")) = Ok f ->
  construct (castLimitsObject P ∅) (castLimits P (prop obj "limits")) = Ok l ->
  construct None (castString P (prop obj "stripePriceId")) = Ok s1 ->
  construct None (castString P (prop obj "stripeProductId")) = Ok s2 ->
  construct (Some true) (castBoolean (prop obj "isActive")) = Ok a ->
  construct (Some false) (castBoolean (prop obj "isPopular")) = Ok po ->
  construct (Some 0%Q) (castNumber P (prop obj "sortOrder")) = Ok so ->
  construct (Some now) (castDate (prop obj "createdAt")) = Ok ca ->
  construct (Some now) (castDate (prop obj "updatedAt")) = Ok ua ->
  Plan_new P now obj
  = Ok {| name := n; description := d; price := pr; currency := c;
          interval := i; features := f; limits := l; stripePriceId := s1;
          stripeProductId := s2; isActive := a; isPopular := po;
          sortOrder := so; createdAt := ca; updatedAt := ua |}.
Proof.
  intros H1 H2 H3 H4 H5 H6 H7 H8 H9 H10 H11 H12 H13 H14. unfold Plan_new.
  rewrite H1, H2, H3, H4, H5, H6, H7, H8, H9, H10, H11, H12, H13, H14.
  reflexivity.
Qed.

Lemma construct_opt_string (d : option string) (v : jsval) :
  opt a_string v = true ->
  exists r, construct d (castString P v) = Ok r /\ (v = JUndefined -> r = d).
Proof. destruct v; simpl; try discriminate; intros _; eexists; split; try reflexivity; try done. Qed.

Lemma construct_or_string (dflt : string) (v : jsval) :
  opt a_string v = true ->
  exists s, construct (Some dflt) (castString P (js_or v (JStr dflt))) = Ok (Some s)
            /\ (v = JUndefined -> s = dflt).
Proof.
  destruct v; simpl; try discriminate; intros _.
  - by exists dflt.
  - unfold js_or. simpl. destruct (String.eqb s ""); simpl.
    + by exists dflt.
    + by exists s.
Qed.

Lemma construct_or_interval (v : jsval) :
  opt an_interval v = true ->
  exists s, construct (Some "monthly") (castString P (js_or v (JStr "monthly"))) = Ok (Some s)
            /\ s ∈ interval_enum
            /\ (v = JUndefined -> s = "monthly").
Proof.
  destruct v; simpl; try discriminate.
  - intros _. exists "monthly". split; [done|]. split; [|done].
    by apply (bool_decide_unpack _).
  - intros H%bool_decide_eq_true. unfold js_or. simpl.
    destruct (String.eqb s "") eqn:E; simpl.
    + exists "monthly". split; [done|]. split; [|done].
      by apply (bool_decide_unpack _).
    + exists s. split; [done|]. split; done.
Qed.

Lemma castFeature_typed (v : jsval) :
  a_feature v = true -> exists f, castFeature P v = Some f.
Proof.
  destruct v; simpl; try discriminate.
  rewrite !andb_true_iff. intros [[[H1 H2] H3] H4].
  destruct (prop o "name"); try discriminate;
  destruct (prop o "included"); try discriminate;
  destruct (prop o "limit"); try discriminate;
  destruct (prop o "description"); try discriminate; simpl; eauto.
Qed.

Lemma castFeatures_typed (l : list jsval) :
  forallb a_feature l = true -> exists fs, mapM (castFeature P) l = Some fs.
Proof.
  induction l as [|v l IH]; simpl; [by exists []|].
  rewrite andb_true_iff. intros [Hv Hl].
  destruct (castFeature_typed v Hv) as [f Hf].
  destruct (IH Hl) as [fs Hfs].
  exists (f :: fs). by rewrite Hf, Hfs.
Qed.

Lemma construct_or_features (v : jsval) :
  opt a_features v = true ->
  exists fs, construct (Some []) (castFeatures P (js_or v (JArr []))) = Ok (Some fs)
             /\ (v = JUndefined -> fs = []).
Proof.
  destruct v; simpl; try discriminate.
  - intros _. by exists [].
  - intros H. destruct (castFeatures_typed l H) as [fs Hfs].
    exists fs. unfold js_or, construct. simpl. by rewrite Hfs.
Qed.

Lemma settle_limit (dflt : Q) (o : gmap string jsval) (k : string) :
  opt a_number (prop o k) = true ->
  exists r, settle (Some dflt) (castNumber P (prop o k)) = Some r
            /\ (o !! k = None -> r = Some dflt).
Proof.
  unfold prop. destruct (o !! k) as [v|]; simpl.
  - destruct v; simpl; try discriminate; intros _; eexists; split; try reflexivity; done.
  - intros _. by eexists.
Qed.

Lemma castLimitsObject_typed (o : gmap string jsval) :
  a_limits (JObj o) = true ->
  exists l, castLimitsObject P o = Some l
    /\ (o !! "franchises" = None -> franchises l = Some 1%Q)
    /\ (o !! "forms" = None -> forms l = Some 5%Q)
    /\ (o !! "submissions" = None -> submissions l = Some 100%Q)
    /\ (o !! "staff" = None -> staff l = Some 5%Q)
    /\ (o !! "storage" = None -> storage l = Some 1024%Q)
    /\ (o !! "apiCalls" = None -> apiCalls l = Some 1000%Q).
Proof.
  simpl. rewrite !andb_true_iff. intros [[[[[H1 H2] H3] H4] H5] H6].
  destruct (settle_limit 1 o "franchises" H1) as (r1 & E1 & D1).
  destruct (settle_limit 5 o "forms" H2) as (r2 & E2 & D2).
  destruct (settle_limit 100 o "submissions" H3) as (r3 & E3 & D3).
  destruct (settle_limit 5 o "staff" H4) as (r4 & E4 & D4).
  destruct (settle_limit 1024 o "storage" H5) as (r5 & E5 & D5).
  destruct (settle_limit 1000 o "apiCalls" H6) as (r6 & E6 & D6).
  eexists. unfold castLimitsObject. rewrite E1, E2, E3, E4, E5, E6. simpl.
  split; [reflexivity|]. simpl. done.
Qed.

Lemma construct_or_limits (v : jsval) :
  opt a_limits v = true ->
  exists l, construct (castLimitsObject P ∅) (castLimits P (js_or v (JObj ∅))) = Ok (Some l)
    /\ forall o, js_or v (JObj ∅) = JObj o ->
         (o !! "franchises" = None -> franchises l = Some 1%Q)
         /\ (o !! "forms" = None -> forms l = Some 5%Q)
         /\ (o !! "submissions" = None -> submissions l = Some 100%Q)
         /\ (o !! "staff" = None -> staff l = Some 5%Q)
         /\ (o !! "storage" = None -> storage l = Some 1024%Q)
         /\ (o !! "apiCalls" = None -> apiCalls l = Some 1000%Q).
Proof.
  intros H.
  assert (exists o, js_or v (JObj ∅) = JObj o /\ a_limits (JObj o) = true) as (o & Ho & Hl).
  { destruct v; try discriminate; [by exists ∅ | by exists o]. }
  destruct (castLimitsObject_typed o Hl) as (l & El & Dl).
  exists l. rewrite Ho. split.
  - unfold construct, castLimits. by rewrite El.
  - by intros o' [= <-].
Qed.

Lemma construct_or_boolean (v : jsval) :
  opt a_boolean v = true ->
  exists b, construct (Some false) (castBoolean (js_or v (JBool false))) = Ok (Some b)
            /\ (v = JUndefined -> b = false).
Proof.
  destruct v; simpl; try discriminate; intros _.
  - by exists false.
  - exists b. by destruct b.
Qed.

Lemma construct_or_number (v : jsval) :
  opt a_number v = true ->
  exists q, construct (Some 0%Q) (castNumber P (js_or v (JNum 0))) = Ok (Some q)
            /\ (v = JUndefined -> q = 0%Q).
Proof.
  destruct v; simpl; try discriminate; intros _.
  - by exists 0%Q.
  - unfold js_or. simpl. destruct (Qeq_bool q 0); simpl; [by exists 0%Q | by exists q].
Qed.

(** C2, as amended: for every create payload that follows the schema (a
    non-empty string [name], a number [price], every other key left out or
    of its declared type, [interval] among the allowed values) and a fresh
    identifier, create answers 201 with the stored record; its [name] and
    [price] are the values supplied, every key left out has its default
    ([limits] key by key), the record is active and both dates are the
    handler's clock. *)
Theorem post_plans_defaults (now : Z) (oid : ObjectId)
    (body : gmap string jsval) (db : gmap ObjectId Plan) :
  valid_create_body body = true -> db !! oid = None ->
  exists p,
    post_plans P now oid body db
    = ({| status := 201;
          json := [("success", RBool true); ("data", RDoc (oid, p))] |},
       <[oid := p]> db)
    /\ JStr <$> name p = Some (prop body "name")
    /\ JNum <$> price p = Some (prop body "price")
    /\ (body !! "description" = None -> description p = None)
    /\ (body !! "currency" = None -> currency p = Some "USD")
    /\ (body !! "interval" = None -> interval p = Some "monthly")
    /\ (body !! "features" = None -> features p = Some [])
    /\ (exists l, limits p = Some l
          /\ (limit_omitted body "franchises" -> franchises l = Some 1%Q)
          /\ (limit_omitted body "forms" -> forms l = Some 5%Q)
          /\ (limit_omitted body "submissions" -> submissions l = Some 100%Q)
          /\ (limit_omitted body "staff" -> staff l = Some 5%Q)
          /\ (limit_omitted body "storage" -> storage l = Some 1024%Q)
          /\ (limit_omitted body "apiCalls" -> apiCalls l = Some 1000%Q))
    /\ (body !! "stripePriceId" = None -> stripePriceId p = None)
    /\ (body !! "stripeProductId" = None -> stripeProductId p = None)
    /\ isActive p = Some true
    /\ (body !! "isPopular" = None -> isPopular p = Some false)
    /\ (body !! "sortOrder" = None -> sortOrder p = Some 0%Q)
    /\ createdAt p = Some now
    /\ updatedAt p = Some now.
Proof.
  intros V Hfresh. unfold valid_create_body in V.
  rewrite !andb_true_iff in V.
  destruct V as [[[[[[[[[[Vn Vp] Vd] Vc] Vi] Vf] Vl] Vs1] Vs2] Vpo] Vso].
  destruct (prop body "name") as [| | | |s| | |] eqn:En; try discriminate.
  destruct (prop body "price") as [| | |q| | | |] eqn:Ep; try discriminate.
  destruct (construct_opt_string None _ Vd) as (d & Ed & Dd).
  destruct (construct_or_string "USD" _ Vc) as (c & Ec & Dc).
  destruct (construct_or_interval _ Vi) as (i & Ei & Ii & Di).
  destruct (construct_or_features _ Vf) as (fs & Ef & Df).
  destruct (construct_or_limits _ Vl) as (l & El & Dl).
  destruct (construct_opt_string None _ Vs1) as (s1 & Es1 & Ds1).
  destruct (construct_opt_string None _ Vs2) as (s2 & Es2 & Ds2).
  destruct (construct_or_boolean _ Vpo) as (po & Epo & Dpo).
  destruct (construct_or_number _ Vso) as (so & Eso & Dso).
  set (p := {| name := Some s; description := d; price := Some q;
               currency := Some c; interval := Some i; features := Some fs;
               limits := Some l; stripePriceId := s1; stripeProductId := s2;
               isActive := Some true; isPopular := Some po;
               sortOrder := Some so; createdAt := Some now;
               updatedAt := Some now |}).
  exists p. split.
  - unfold post_plans. cbv zeta. rewrite En, Ep. simpl in Vn.
    change (negb (truthy (JStr s)) || is_undefined (JNum q)) with (negb (negb (String.eqb s "")) || false).
    rewrite Vn.
    change (negb true || false) with false. cbv iota.
    match goal with
    | |- context [Plan_new P now ?o] =>
        rewrite (Plan_new_Ok now o (Some s) d (Some q) (Some c) (Some i)
                   (Some fs) (Some l) s1 s2 (Some true) (Some po) (Some so)
                   (Some now) (Some now) eq_refl Ed eq_refl Ec Ei Ef El
                   Es1 Es2 eq_refl Epo Eso eq_refl eq_refl)
    end.
    fold p. simpl. unfold save.
    assert (validate p = true) as ->.
    { unfold validate, p. simpl. rewrite Vn. simpl. by apply bool_decide_eq_true. }
    by rewrite Hfresh.
  - assert (A : forall k, body !! k = None -> prop body k = JUndefined).
    { intros k. apply prop_absent. }
    simpl.
    split; [done|]. split; [done|]. split; [auto|]. split; [intros; f_equal; auto|].
    split; [intros; f_equal; auto|]. split; [intros; f_equal; auto|].
    split.
    { exists l. split; [done|]. unfold limit_omitted.
      destruct (prop body "limits") as [| | | | | | |o] eqn:Eo; try discriminate.
      - specialize (Dl ∅ eq_refl). destruct Dl as (D1 & D2 & D3 & D4 & D5 & D6).
        repeat split; intros _; auto.
      - specialize (Dl o eq_refl). destruct Dl as (D1 & D2 & D3 & D4 & D5 & D6).
        repeat split; auto. }
    split; [auto|]. split; [auto|]. split; [done|].
    split; [intros; f_equal; auto|]. split; [intros; f_equal; auto|]. done.
Qed.

End Properties.

(** * The handlers on the sample requests *)

Lemma db1_holds_plan1 : db1 !! oid1 = Some plan1.
Proof. vm_compute. reflexivity. Qed.

Lemma create_scenario :
  post_plans (mongoose false) 1000 oid1 basic ∅
  = ({| status := 201;
        json := [("success", RBool true); ("data", RDoc (oid1, plan1))] |},
     db1)
  /\ get_plan (mongoose false) id1 db1
     = {| status := 200;
          json := [("success", RBool true); ("data", RDoc (oid1, plan1))] |}
  /\ status (delete_plan (mongoose false) id1 db1).1 = 200
  /\ listed (get_plans active_only deleted) = []
  /\ listed (get_plans active_false deleted)
     = [(oid1, set_isActive false plan1)].
Proof. vm_compute. repeat split; reflexivity. Qed.

(** A price of zero is accepted. *)
Lemma create_free_plan :
  status (post_plans (mongoose false) 1000 oid1
            {[ "name" := JStr "Free"; "price" := JNum 0 ]} ∅).1 = 201.
Proof. vm_compute. reflexivity. Qed.

(** The spec's update example on the two platforms: [name] is unset where
    [undefined] is written, kept where it is dropped. *)
Lemma update_price_only :
  name <$> updated false price_only !! oid1 = Some None
  /\ name <$> updated true price_only !! oid1 = Some (Some "Basic")
  /\ price <$> updated false price_only !! oid1 = Some (Some 50%Q)
  /\ price <$> updated true price_only !! oid1 = Some (Some 50%Q).
Proof. vm_compute. repeat split; reflexivity. Qed.

(** ** The theorems at the sample requests *)


Lemma post_plans_defaults_witness :
  exists p,
    post_plans (mongoose false) 1000 oid1 basic ∅
    = ({| status := 201;
          json := [("success", RBool true); ("data", RDoc (oid1, p))] |},
       <[oid1 := p]> ∅)
    /\ currency p = Some "USD" /\ isActive p = Some true.
Proof.
  destruct (post_plans_defaults (mongoose false) 1000 oid1 basic ∅)
    as (p & E & _ & _ & _ & C & _ & _ & _ & _ & _ & A & _).
  - vm_compute. reflexivity.
  - reflexivity.
  - exists p. split; [exact E|]. split; [|exact A]. apply C. reflexivity.
Defined.

Lemma malformed_id_500_witness :
  get_plan (mongoose false) bad_id db1 = failure 500 "Failed to fetch plan".
Proof.
  refine (proj1 (malformed_id_500 (mongoose false) 0 bad_id ∅ db1 _)).
  vm_compute. reflexivity.
Defined.

Lemma delete_plan_soft_witness :
  status (delete_plan (mongoose false) id1 db1).1 = 200
  /\ (delete_plan (mongoose false) id1 db1).2
     = <[oid1 := set_isActive false plan1]> db1.
Proof.
  destruct (delete_plan_soft (mongoose false) id1 oid1 plan1 db1)
    as (S & D & _).
  - vm_compute. reflexivity.
  - vm_compute. reflexivity.
  - vm_compute. reflexivity.
  - split; [exact S | exact D].
Defined.

Lemma post_plans_rejects_witness :
  post_plans (mongoose false) 1000 oid1 unnamed ∅
  = (failure 400 "Plan name and price are required", ∅).
Proof.
  pose proof (post_plans_rejects (mongoose false) 1000 oid1 unnamed ∅) as H.
  cbv zeta in H. destruct H as (I & E & _).
  apply E, I. left. vm_compute. reflexivity.
Defined.

Lemma get_plans_sorted_witness :
  key_le (sortOrder plan1) (sortOrder plan2)
  /\ (key_eq (sortOrder plan1) (sortOrder plan2) ->
      key_le (price plan1) (price plan2)).
Proof.
  pose proof (get_plans_sorted ∅ db2) as H.
  cbv zeta in H. destruct H as (_ & _ & _ & H).
  apply (H 0%nat 1%nat (oid1, plan1) (oid2, plan2)).
  - lia.
  - vm_compute. reflexivity.
  - vm_compute. reflexivity.
Defined.

Lemma success_envelope_witness :
  keys (get_plan (mongoose false) id1 db1) = ["success"; "data"]
  /\ field "success" (get_plan (mongoose false) id1 db1) = Some (RBool true).
Proof.
  destruct (success_envelope (mongoose false) 0 oid1 id1 ∅ ∅ db1)
    as (_ & _ & G & _).
  apply G. vm_compute. reflexivity.
Defined.

Lemma get_plans_filters_witness :
  (oid1, set_isActive false plan1) ∈ listed (get_plans active_false deleted).
Proof.
  apply (proj2 (get_plans_filters active_false deleted)). simpl.
  split; [vm_compute; reflexivity|].
  split; intros H; vm_compute in H; discriminate H.
Defined.

Lemma post_plans_ignores_isActive_witness :
  exists p,
    post_plans (mongoose false) 1000 oid1 basic ∅
    = ({| status := 201;
          json := [("success", RBool true); ("data", RDoc (oid1, p))] |},
       <[oid1 := p]> ∅)
    /\ isActive p = Some true.
Proof.
  apply (proj2 (post_plans_ignores_isActive (mongoose false) 1000 oid1 basic ∅
                  (JBool false))).
  vm_compute. reflexivity.
Defined.

(** ** Runs that contradict the specification as worded *)


(** C2: a body with a name and a price that is not undefined, and no
    record: an empty name is the 400 of the guard, a null price the 500 of
    the [required] validator, an interval outside the allowed ones the 500
    of the [enum] validator. *)
Lemma create_without_record :
  unnamed !! "name" = Some (JStr "")
  /\ unnamed !! "price" = Some (JNum 5)
  /\ post_plans (mongoose false) 1000 oid1 unnamed ∅
     = (failure 400 "Plan name and price are required", ∅)
  /\ null_price !! "name" = Some (JStr "Pro")
  /\ is_undefined (prop null_price "price") = false
  /\ post_plans (mongoose false) 1000 oid1 null_price ∅
     = (failure 500 "Failed to create plan", ∅)
  /\ post_plans (mongoose false) 1000 oid1 weekly ∅
     = (failure 500 "Failed to create plan", ∅).
Proof. vm_compute. repeat split; reflexivity. Qed.

(** C3: an identifier that is not 24 hexadecimal digits: each of the four
    handlers answers 500, not 404. *)
Lemma malformed_id_not_404 :
  castObjectId (mongoose false) bad_id = None
  /\ status (get_plan (mongoose false) bad_id db1) = 500
  /\ status (put_plan (mongoose false) 2000 bad_id price_only db1).1 = 500
  /\ status (delete_plan (mongoose false) bad_id db1).1 = 500
  /\ status (get_plan_features (mongoose false) bad_id db1) = 500.
Proof. vm_compute. repeat split; reflexivity. Qed.

(** C5: after an update has nulled [name] (the spec's own update example
    where [undefined] is written, an explicit null on either platform), soft
    delete of the existing record is a 500 and the record is as it was; where
    only [name] was nulled it is still active and still listed under
    [active=true]. *)
Lemma soft_delete_fails_after_update :
  name <$> updated false price_only !! oid1 = Some None
  /\ delete_plan (mongoose false) id1 (updated false price_only)
     = (failure 500 "Failed to delete plan", updated false price_only)
  /\ name <$> updated true null_name !! oid1 = Some None
  /\ isActive <$> updated true null_name !! oid1 = Some (Some true)
  /\ delete_plan (mongoose true) id1 (updated true null_name)
     = (failure 500 "Failed to delete plan", updated true null_name)
  /\ length (listed (get_plans active_only
               (delete_plan (mongoose true) id1 (updated true null_name)).2))
     = 1%nat.
Proof. vm_compute. repeat split; reflexivity. Qed.

(** C6: a body whose [name] is present, as the empty string, and whose
    [price] is defined is rejected with 400. *)
Lemma create_empty_name_400 :
  unnamed !! "name" = Some (JStr "")
  /\ is_undefined (prop unnamed "price") = false
  /\ status (post_plans (mongoose false) 1000 oid1 unnamed ∅).1 = 400.
Proof. vm_compute. repeat split; reflexivity. Qed.

(** C8: the answer of a successful soft delete has no [data]. *)
Lemma delete_answer_has_no_data :
  status (delete_plan (mongoose false) id1 db1).1 = 200
  /\ keys (delete_plan (mongoose false) id1 db1).1 = ["success"; "message"]
  /\ field "data" (delete_plan (mongoose false) id1 db1).1 = None.
Proof. vm_compute. repeat split; reflexivity. Qed.

(** ** The stale [updatedAt] of a soft delete *)

(** C4, on the code: a plan created at time 1000 and soft-deleted at any
    later time is stored with [isActive = false] and the [updatedAt] of its
    creation; the update handler, run at time 2000 on the same plan, stores
    2000. *)
Theorem soft_delete_stale_updatedAt :
  status (delete_plan (mongoose false) id1 db1).1 = 200
  /\ isActive <$> deleted !! oid1 = Some (Some false)
  /\ updatedAt <$> deleted !! oid1 = Some (Some 1000%Z)
  /\ updatedAt <$> updated false price_only !! oid1 = Some (Some 2000%Z).
Proof. vm_compute. repeat split; reflexivity. Qed.

(** * Further properties of the handlers *)

Lemma Plan_ext (p q : Plan) :
  name p = name q -> description p = description q -> price p = price q ->
  currency p = currency q -> interval p = interval q ->
  features p = features q -> limits p = limits q ->
  stripePriceId p = stripePriceId q -> stripeProductId p = stripeProductId q ->
  isActive p = isActive q -> isPopular p = isPopular q ->
  sortOrder p = sortOrder q -> createdAt p = createdAt q ->
  updatedAt p = updatedAt q -> p = q.
Proof. destruct p, q; simpl; intros; subst; reflexivity. Qed.

Lemma filter_all {A} (Q : A -> Prop) `{!forall x, Decision (Q x)} (l : list A) :
  (forall x, x ∈ l -> Q x) -> filter Q l = l.
Proof.
  induction l as [|x l IH]; intros Hall; [done|].
  rewrite filter_cons_True by (apply Hall; left).
  f_equal. apply IH. intros y Hy. apply Hall. by right.
Qed.

Section Further.
Variable P : Platform.

(** ** Create, path by path *)

Lemma post_plans_create (now : Z) (oid : ObjectId) (body : gmap string jsval)
    (db : gmap ObjectId Plan) :
  post_plans P now oid body db
  = if negb (truthy (prop body "name")) || is_undefined (prop body "price")
    then (failure 400 "Plan name and price are required", db)
    else match
           plan ← Plan_new P now (create_of body);
           db' ← save true oid plan db;
           mret (plan, db')
         with
         | Ok (plan, db') =>
             ({| status := 201;
                 json := [("success", RBool true);
                          ("data", RDoc (oid, plan))] |}, db')
         | Throw _ => (failure 500 "Failed to create plan", db)
         end.
Proof. reflexivity. Qed.

Lemma post_plans_created (now : Z) (oid : ObjectId) (body : gmap string jsval)
    (db : gmap ObjectId Plan) :
  status (post_plans P now oid body db).1 = 201 ->
  exists p,
    Plan_new P now (create_of body) = Ok p
    /\ validate p = true
    /\ db !! oid = None
    /\ post_plans P now oid body db
       = ({| status := 201;
             json := [("success", RBool true); ("data", RDoc (oid, p))] |},
          <[oid := p]> db).
Proof.
  rewrite post_plans_create.
  destruct (negb (truthy (prop body "name"))
            || is_undefined (prop body "price")); [done|].
  destruct (Plan_new P now (create_of body)) as [p|e]; [|done].
  simpl. unfold save.
  destruct (validate p) eqn:V; [|done].
  destruct (db !! oid) eqn:L; [done|].
  intros _. by exists p.
Qed.

Lemma Plan_new_paths (now : Z) (obj : gmap string jsval) (p : Plan) :
  Plan_new P now obj = Ok p ->
  construct None (castString P (prop obj "name")) = Ok (name p)
  /\ construct None (castString P (prop obj "description")) = Ok (description p)
  /\ construct None (castNumber P (prop obj "price")) = Ok (price p)
  /\ construct (Some "USD") (castString P (prop obj "currency"))
     = Ok (currency p)
  /\ construct (Some "monthly") (castString P (prop obj "interval"))
     = Ok (interval p)
  /\ construct (Some []) (castFeatures P (prop obj "features"))
     = Ok (features p)
  /\ construct (castLimitsObject P ∅) (castLimits P (prop obj "limits"))
     = Ok (limits p)
  /\ construct None (castString P (prop obj "stripePriceId"))
     = Ok (stripePriceId p)
  /\ construct None (castString P (prop obj "stripeProductId"))
     = Ok (stripeProductId p)
  /\ construct (Some true) (castBoolean (prop obj "isActive")) = Ok (isActive p)
  /\ construct (Some false) (castBoolean (prop obj "isPopular"))
     = Ok (isPopular p)
  /\ construct (Some 0%Q) (castNumber P (prop obj "sortOrder"))
     = Ok (sortOrder p)
  /\ construct (Some now) (castDate (prop obj "createdAt")) = Ok (createdAt p)
  /\ construct (Some now) (castDate (prop obj "updatedAt")) = Ok (updatedAt p).
Proof.
  intros E. unfold Plan_new in E.
  repeat (apply bind_Ok in E as (? & ? & E)).
  injection E as <-. simpl. repeat split; assumption.
Qed.

Lemma js_or_falsy (v d : jsval) : truthy v = false -> js_or v d = d.
Proof. unfold js_or. by intros ->. Qed.

(** X2: the create handler fills its defaults in with [||], so a falsy
    value sent for [currency], [interval], [features], [limits], [isPopular]
    or [sortOrder] (null, false, 0, the empty string) gives the same stored
    default as leaving the key out. *)
Theorem post_plans_falsy_defaults (now : Z) (oid : ObjectId)
    (body : gmap string jsval) (db : gmap ObjectId Plan) :
  status (post_plans P now oid body db).1 = 201 ->
  exists p,
    (post_plans P now oid body db).2 !! oid = Some p
    /\ (truthy (prop body "currency") = false -> currency p = Some "USD")
    /\ (truthy (prop body "interval") = false -> interval p = Some "monthly")
    /\ (truthy (prop body "features") = false -> features p = Some [])
    /\ (truthy (prop body "limits") = false -> limits p = Some default_limits)
    /\ (truthy (prop body "isPopular") = false -> isPopular p = Some false)
    /\ (truthy (prop body "sortOrder") = false -> sortOrder p = Some 0%Q).
Proof.
  intros H. destruct (post_plans_created now oid body db H) as (p & E & _ & _ & R).
  exists p. rewrite R. split; [apply lookup_insert_eq|].
  apply Plan_new_paths in E.
  destruct E as (_ & _ & _ & Ec & Ei & Ef & El & _ & _ & _ & Ep & Es & _).
  change (prop (create_of body) "currency")
    with (js_or (prop body "currency") (JStr "USD")) in Ec.
  change (prop (create_of body) "interval")
    with (js_or (prop body "interval") (JStr "monthly")) in Ei.
  change (prop (create_of body) "features")
    with (js_or (prop body "features") (JArr [])) in Ef.
  change (prop (create_of body) "limits")
    with (js_or (prop body "limits") (JObj ∅)) in El.
  change (prop (create_of body) "isPopular")
    with (js_or (prop body "isPopular") (JBool false)) in Ep.
  change (prop (create_of body) "sortOrder")
    with (js_or (prop body "sortOrder") (JNum 0)) in Es.
  repeat split; intros F; rewrite (js_or_falsy _ _ F) in *.
  - by injection Ec.
  - by injection Ei.
  - by injection Ef.
  - by injection El.
  - by injection Ep.
  - by injection Es.
Qed.

(** ** Outcomes of the handlers that look a record up *)

(** X6: with the store answering, get by identifier answers 200 exactly
    when the identifier is well-formed and matches a stored record, and 404
    exactly when it is well-formed and matches none; a malformed identifier
    is always answered 500; the features route answers with the same status
    and, on 200, with the [features] and [limits] of the document that get
    returns. *)
Theorem get_plan_outcomes (id : string) (db : gmap ObjectId Plan) :
  (status (get_plan P id db) = 200 <->
     exists oid p, castObjectId P id = Some oid /\ db !! oid = Some p)
  /\ (status (get_plan P id db) = 404 <->
     exists oid, castObjectId P id = Some oid /\ db !! oid = None)
  /\ (castObjectId P id = None -> status (get_plan P id db) = 500)
  /\ status (get_plan_features P id db) = status (get_plan P id db)
  /\ (forall oid p,
        get_plan P id db
        = {| status := 200;
             json := [("success", RBool true); ("data", RDoc (oid, p))] |} ->
        get_plan_features P id db
        = {| status := 200;
             json := [("success", RBool true);
                      ("data", RFeatures (features p) (limits p))] |}).
Proof.
  unfold get_plan, get_plan_features, findById.
  destruct (castObjectId P id) as [oid|] eqn:C.
  - destruct (db !! oid) as [p|] eqn:L; simpl.
    + split; [split; [intros _; by exists oid, p | done]|].
      split; [split; [done | intros (o & [= <-] & ?); congruence]|].
      split; [done|]. split; [done|].
      by intros o q [= <- <-].
    + split; [split; [done | intros (o & q & [= <-] & ?); congruence]|].
      split; [split; [intros _; by exists oid | done]|].
      split; [done|]. split; done.
  - simpl.
    split; [split; [done | by intros (o & q & ? & ?)]|].
    split; [split; [done | by intros (o & ? & ?)]|].
    split; [done|]. split; done.
Qed.

(** X8: with the store answering, soft delete answers 200 exactly when the
    identifier is well-formed and matches a stored record that passes the
    validators, and 404 exactly when it is well-formed and matches none; a
    malformed identifier, and a matched record that fails a validator, are
    always answered 500; any answer other than 200 leaves the collection as
    it was. *)
Theorem delete_plan_outcomes (id : string) (db : gmap ObjectId Plan) :
  (status (delete_plan P id db).1 = 200 <->
     exists oid p, castObjectId P id = Some oid /\ db !! oid = Some p
                   /\ validate p = true)
  /\ (status (delete_plan P id db).1 = 404 <->
     exists oid, castObjectId P id = Some oid /\ db !! oid = None)
  /\ (castObjectId P id = None
      \/ (exists oid p, castObjectId P id = Some oid /\ db !! oid = Some p
                        /\ validate p = false) ->
      status (delete_plan P id db).1 = 500)
  /\ (status (delete_plan P id db).1 <> 200 -> (delete_plan P id db).2 = db).
Proof.
  destruct (castObjectId P id) as [oid|] eqn:C.
  - destruct (db !! oid) as [p|] eqn:L.
    + rewrite (delete_plan_found P id oid p db C L).
      destruct (validate p) eqn:V; simpl.
      * split; [split; [intros _; by exists oid, p | done]|].
        split; [split; [done | intros (o & [= <-] & ?); congruence]|].
        split; [|done].
        intros [?|(o & q & [= <-] & ? & ?)]; congruence.
      * split; [split; [done | intros (o & q & [= <-] & ? & ?); congruence]|].
        split; [split; [done | intros (o & [= <-] & ?); congruence]|].
        split; done.
    + destruct (unknown_id_404 P id oid db C L) as (_ & -> & _). simpl.
      split; [split; [done | intros (o & q & [= <-] & ? & ?); congruence]|].
      split; [split; [intros _; by exists oid | done]|].
      split; [|done].
      intros [?|(o & q & [= <-] & ? & ?)]; congruence.
  - unfold delete_plan. rewrite (findById_malformed P id db C). simpl.
    split; [split; [done | by intros (o & q & ? & ?)]|].
    split; [split; [done | by intros (o & ? & ?)]|].
    split; done.
Qed.

(** ** Failures *)

(** X9: every answer of a plan handler that is not its success status is
    the envelope [{ success: false, error: <message> }] with status 400, 404
    or 500, and so are the answers of the fallback route and of the error
    middleware. *)
Theorem failure_envelope (now : Z) (oid : ObjectId) (id : string)
    (body : gmap string jsval) (db : gmap ObjectId Plan) :
  (status (get_plan P id db) <> 200 -> is_failure (get_plan P id db))
  /\ (status (post_plans P now oid body db).1 <> 201 ->
      is_failure (post_plans P now oid body db).1)
  /\ (status (put_plan P now id body db).1 <> 200 ->
      is_failure (put_plan P now id body db).1)
  /\ (status (delete_plan P id db).1 <> 200 ->
      is_failure (delete_plan P id db).1)
  /\ (status (get_plan_features P id db) <> 200 ->
      is_failure (get_plan_features P id db))
  /\ is_failure route_not_found
  /\ is_failure unhandled_error.
Proof.
  unfold is_failure.
  split.
  { unfold get_plan. destruct (findById P id db) as [[d|]|e]; simpl;
      intros H; try done; repeat split; auto. }
  split.
  { destruct (post_plans_cases P now oid body db)
      as [[E _]|[[E _]|(p & E & _)]]; rewrite E; simpl;
      intros H; try done; repeat split; auto. }
  split.
  { rewrite put_plan_update.
    destruct (findByIdAndUpdate P id (update_of now body) db)
      as [[[d|] db']|e]; simpl; intros H; try done; repeat split; auto. }
  split.
  { unfold delete_plan.
    destruct (findById P id db) as [[[i p]|]|e]; simpl;
      try (intros H; repeat split; auto; fail).
    destruct (save false i (set_isActive false p) db); simpl;
      intros H; try done; repeat split; auto. }
  split.
  { unfold get_plan_features.
    destruct (findById P id db) as [[[i p]|]|e]; simpl;
      intros H; try done; repeat split; auto. }
  split; repeat split; auto.
Qed.

(** ** Update and soft delete touch one record *)

Lemma put_plan_result (now : Z) (id : string) (body : gmap string jsval)
    (db : gmap ObjectId Plan) :
  (status (put_plan P now id body db).1 <> 200
   /\ (put_plan P now id body db).2 = db)
  \/ exists oid old change,
       castObjectId P id = Some oid /\ db !! oid = Some old
       /\ castUpdate P (update_of now body) = Ok change
       /\ put_plan P now id body db
          = ({| status := 200;
                json := [("success", RBool true);
                         ("data", RDoc (oid, change old))] |},
             <[oid := change old]> db).
Proof.
  destruct (castObjectId P id) as [oid|] eqn:C.
  - destruct (put_plan_cases P now id oid body db C)
      as [[E _]|(change & U & E)]; [left; by rewrite E|].
    destruct (db !! oid) as [old|] eqn:L; [|left; by rewrite E].
    right. by exists oid, old, change.
  - left. rewrite put_plan_update. unfold findByIdAndUpdate. by rewrite C.
Qed.

Lemma delete_plan_result (id : string) (db : gmap ObjectId Plan) :
  (status (delete_plan P id db).1 <> 200 /\ (delete_plan P id db).2 = db)
  \/ exists oid p,
       castObjectId P id = Some oid /\ db !! oid = Some p
       /\ validate p = true
       /\ delete_plan P id db
          = ({| status := 200;
                json := [("success", RBool true);
                         ("message", RStr "Plan deleted successfully")] |},
             <[oid := set_isActive false p]> db).
Proof.
  destruct (castObjectId P id) as [oid|] eqn:C.
  - destruct (db !! oid) as [p|] eqn:L.
    + rewrite (delete_plan_found P id oid p db C L).
      destruct (validate p) eqn:V; [|by left].
      right. by exists oid, p.
    + destruct (unknown_id_404 P id oid db C L) as (_ & -> & _). by left.
  - left. unfold delete_plan. by rewrite (findById_malformed P id db C).
Qed.

(** X10: update and soft delete never add or remove a record (the set of
    stored identifiers is unchanged: no upsert, no physical delete), a failed
    update writes nothing, and neither handler touches a record other than
    the one addressed. *)
Theorem update_delete_frame (now : Z) (id : string) (body : gmap string jsval)
    (db : gmap ObjectId Plan) :
  dom (put_plan P now id body db).2 = dom db
  /\ dom (delete_plan P id db).2 = dom db
  /\ (status (put_plan P now id body db).1 <> 200 ->
      (put_plan P now id body db).2 = db)
  /\ (forall oid, castObjectId P id <> Some oid ->
        (put_plan P now id body db).2 !! oid = db !! oid
        /\ (delete_plan P id db).2 !! oid = db !! oid).
Proof.
  destruct (put_plan_result now id body db)
    as [[Sp Ep]|(o1 & old & change & C1 & L1 & _ & Ep)];
  destruct (delete_plan_result id db)
    as [[Sd Ed]|(o2 & p & C2 & L2 & _ & Ed)];
  rewrite ?Ep, ?Ed; simpl;
  (split; [try done; by apply dom_insert_lookup_L|]);
  (split; [try done; by apply dom_insert_lookup_L|]);
  (split; [try done|]);
  intros oid Hne; split; try done;
  apply lookup_insert_ne; congruence.
Qed.

(** ** Timestamps under update and soft delete *)

(** X11: [createdAt] is immutable: whatever the request and its outcome,
    every stored record has the same [createdAt] after an update or a soft
    delete as before. *)
Theorem createdAt_immutable (now : Z) (id : string) (body : gmap string jsval)
    (db : gmap ObjectId Plan) (oid : ObjectId) :
  createdAt <$> (put_plan P now id body db).2 !! oid = createdAt <$> db !! oid
  /\ createdAt <$> (delete_plan P id db).2 !! oid = createdAt <$> db !! oid.
Proof.
  split.
  - destruct (put_plan_result now id body db)
      as [[_ ->]|(o & old & change & C & L & U & ->)]; [done|]. simpl.
    destruct (decide (o = oid)) as [->|Hne].
    + rewrite lookup_insert_eq, L. simpl.
      by destruct (update_of_timestamps P now body change old U) as [_ ->].
    + by rewrite lookup_insert_ne.
  - destruct (delete_plan_result id db)
      as [[_ ->]|(o & p & C & L & _ & ->)]; [done|]. simpl.
    destruct (decide (o = oid)) as [->|Hne].
    + by rewrite lookup_insert_eq, L.
    + by rewrite lookup_insert_ne.
Qed.

(** ** Idempotence *)

Lemma castPath_idem {A} (cast : jsval -> casted A) (upd : gmap string jsval)
    (k : string) (f : option A -> option A) :
  castPath P cast upd k = Ok f -> forall x, f (f x) = f x.
Proof.
  unfold castPath. destruct (upd !! k) as [v|]; [|by intros [= <-]].
  destruct (cast v); try discriminate; intros [= <-] x; try done.
  by destruct (omitUndefined P).
Qed.

(** X16: soft delete is idempotent whatever its outcome: a second call
    with the same identifier gives the same answer and leaves the collection
    as the first call left it. *)
Theorem delete_plan_idempotent (id : string) (db : gmap ObjectId Plan) :
  delete_plan P id (delete_plan P id db).2 = delete_plan P id db.
Proof.
  destruct (delete_plan_result id db)
    as [[_ E]|(oid & p & C & L & V & E)]; [by rewrite E|].
  rewrite E at 1. simpl.
  rewrite (delete_plan_found P id oid (set_isActive false p)
             (<[oid := set_isActive false p]> db) C (lookup_insert_eq _ _ _)).
  rewrite validate_set_isActive, V, set_isActive_idem, insert_insert_eq.
  by rewrite E.
Qed.

Lemma castPath_null {A} (cast : jsval -> casted A)
    (upd : gmap string jsval) (k : string) (v : jsval)
    (f : option A -> option A) :
  upd !! k = Some v -> cast v = CastNull ->
  castPath P cast upd k = Ok f -> forall old, f old = None.
Proof. intros Hk Hc. unfold castPath. rewrite Hk, Hc. by intros [= <-]. Qed.

(** ** What an update can do to a record *)

(** X13: unlike create, update takes [isActive] from the body: a
    successful update that sends a boolean stores it, so sending [true]
    brings a soft-deleted plan back into every listing that does not filter
    on [popular]. *)
Theorem put_plan_sets_isActive (now : Z) (id : string) (oid : ObjectId)
    (body : gmap string jsval) (db : gmap ObjectId Plan) (b : bool) :
  castObjectId P id = Some oid ->
  status (put_plan P now id body db).1 = 200 ->
  prop body "isActive" = JBool b ->
  exists new,
    (put_plan P now id body db).2 !! oid = Some new
    /\ isActive new = Some b
    /\ (b = true ->
        forall query, prop query "popular" <> JStr "true" ->
          (oid, new) ∈ listed (get_plans query (put_plan P now id body db).2)).
Proof.
  intros C S B.
  destruct (put_plan_result now id body db)
    as [[N _]|(o & old & change & C' & L & U & E)]; [done|].
  assert (o = oid) as -> by congruence.
  exists (change old). rewrite E. simpl.
  assert (A : isActive (change old) = Some b).
  { apply castUpdate_paths in U.
    destruct U as (_ & _ & _ & _ & _ & _ & _ & _ & _ & (f & Ef & F) & _).
    rewrite F.
    pose proof (update_of_key now body KisActive) as K.
    change (key_string KisActive) with "isActive" in K. rewrite B in K.
    by apply (castPath_value P castBoolean (update_of now body) "isActive"
                (JBool b) b f). }
  split; [apply lookup_insert_eq|]. split; [done|].
  intros -> query Hq. apply elem_of_listed. simpl.
  split; [apply lookup_insert_eq|]. split; done.
Qed.

(** X14: update runs no validators: a successful update whose body has a
    null or empty [name] stores a record that fails [required], and a soft
    delete of that record then answers 500 and writes nothing. *)
Theorem put_plan_no_validation (now : Z) (id : string) (oid : ObjectId)
    (body : gmap string jsval) (db : gmap ObjectId Plan) :
  castObjectId P id = Some oid ->
  status (put_plan P now id body db).1 = 200 ->
  prop body "name" = JNull \/ prop body "name" = JStr "" ->
  (exists new, (put_plan P now id body db).2 !! oid = Some new
               /\ validate new = false)
  /\ delete_plan P id (put_plan P now id body db).2
     = (failure 500 "Failed to delete plan", (put_plan P now id body db).2).
Proof.
  intros C S B.
  destruct (put_plan_result now id body db)
    as [[N _]|(o & old & change & C' & L & U & E)]; [done|].
  assert (o = oid) as -> by congruence.
  assert (V : validate (change old) = false).
  { apply castUpdate_paths in U. destruct U as ((f & Ef & F) & _).
    unfold validate. rewrite F.
    pose proof (update_of_key now body Kname) as K.
    change (key_string Kname) with "name" in K.
    destruct B as [B|B]; rewrite B in K.
    - by rewrite (castPath_null (castString P) _ _ _ f K eq_refl Ef).
    - by rewrite (castPath_value P (castString P) _ _ _ "" f K eq_refl Ef). }
  rewrite E. simpl. split.
  - exists (change old). split; [apply lookup_insert_eq | done].
  - by rewrite (delete_plan_found P id oid (change old) _ C
                  (lookup_insert_eq _ _ _)), V.
Qed.

(** ** Create, then read *)

(** X3: after a create answered 201, a get by the identifier of the new
    record answers 200 with the very document the create returned, and the
    features route answers with its [features] and [limits]. *)
Theorem create_then_get (now : Z) (oid : ObjectId) (id : string)
    (body : gmap string jsval) (db : gmap ObjectId Plan) :
  status (post_plans P now oid body db).1 = 201 ->
  castObjectId P id = Some oid ->
  exists p,
    (post_plans P now oid body db).1
    = {| status := 201;
         json := [("success", RBool true); ("data", RDoc (oid, p))] |}
    /\ get_plan P id (post_plans P now oid body db).2
       = {| status := 200;
            json := [("success", RBool true); ("data", RDoc (oid, p))] |}
    /\ get_plan_features P id (post_plans P now oid body db).2
       = {| status := 200;
            json := [("success", RBool true);
                     ("data", RFeatures (features p) (limits p))] |}.
Proof.
  intros S C.
  destruct (post_plans_created now oid body db S) as (p & _ & _ & _ & E).
  exists p. rewrite E. simpl. split; [done|]. split.
  - apply (get_plan_found P id oid); [done | apply lookup_insert_eq].
  - apply (get_plan_features_found P id oid); [done | apply lookup_insert_eq].
Qed.

(** ** The size of a listing *)

Lemma unfiltered (query : gmap string jsval) (db : gmap ObjectId Plan) :
  prop query "active" <> JStr "true" -> prop query "popular" <> JStr "true" ->
  find (filter_of query) db = map_to_list db.
Proof.
  intros Ha Hp. unfold find. apply filter_all. intros d _.
  apply matches_filter_of. split; intros; done.
Qed.

(** X4: the [count] of a listing is the number of documents in [data]; it
    never exceeds the size of the collection, a filtered listing holds only
    documents of the unfiltered one, and with neither filter switched on the
    listing holds every stored record once. *)
Theorem get_plans_count (query : gmap string jsval) (db : gmap ObjectId Plan) :
  field "count" (get_plans query db)
  = Some (RNum (length (listed (get_plans query db))))
  /\ (length (listed (get_plans query db)) <= size db)%nat
  /\ listed (get_plans query db) ⊆ listed (get_plans ∅ db)
  /\ (prop query "active" <> JStr "true" ->
      prop query "popular" <> JStr "true" ->
      listed (get_plans query db) ≡ₚ map_to_list db
      /\ length (listed (get_plans query db)) = size db).
Proof.
  split; [by rewrite get_plans_listed|].
  split.
  { rewrite listed_get_plans. unfold sort, find.
    rewrite merge_sort_Permutation, <- length_map_to_list.
    apply length_filter. }
  split.
  { intros d Hd. apply elem_of_listed in Hd as (L & _).
    apply elem_of_listed. split; [done|]. split; intros H; by vm_compute in H. }
  intros Ha Hp. rewrite listed_get_plans, (unfiltered _ _ Ha Hp). unfold sort.
  split; [apply merge_sort_Permutation|].
  by rewrite merge_sort_Permutation, length_map_to_list.
Qed.

(** X5: a create answered 201 raises the count of the unfiltered listing
    by exactly one; any other answer leaves it as it was. *)
Theorem create_count (now : Z) (oid : ObjectId) (body : gmap string jsval)
    (db : gmap ObjectId Plan) :
  let r := post_plans P now oid body db in
  (status r.1 = 201 ->
   field "count" (get_plans ∅ r.2) = Some (RNum (S (size db))))
  /\ (status r.1 <> 201 ->
      field "count" (get_plans ∅ r.2) = Some (RNum (size db))).
Proof.
  intros r.
  assert (K : forall m : gmap ObjectId Plan,
            field "count" (get_plans ∅ m) = Some (RNum (size m))).
  { intros m. rewrite get_plans_listed. unfold field. simpl.
    rewrite (unfiltered ∅ m) by done. unfold sort.
    by rewrite merge_sort_Permutation, length_map_to_list. }
  rewrite K. subst r.
  destruct (post_plans_cases P now oid body db)
    as [[E _]|[[E _]|(p & E & _ & F & _)]]; rewrite E; simpl.
  - split; done.
  - split; done.
  - split; [|done]. intros _. by rewrite map_size_insert_None.
Qed.

(** ** Create, soft delete, list *)

(** X17: a plan just created can always be soft-deleted: after a create
    answered 201, soft delete by its identifier answers 200, get still
    returns the record, now with [isActive = false], and no listing filtered
    on [active=true] holds it. *)
Theorem create_delete_list (now : Z) (oid : ObjectId) (id : string)
    (body : gmap string jsval) (db : gmap ObjectId Plan) :
  status (post_plans P now oid body db).1 = 201 ->
  castObjectId P id = Some oid ->
  let created := (post_plans P now oid body db).2 in
  exists p,
    created !! oid = Some p
    /\ status (delete_plan P id created).1 = 200
    /\ get_plan P id (delete_plan P id created).2
       = {| status := 200;
            json := [("success", RBool true);
                     ("data", RDoc (oid, set_isActive false p))] |}
    /\ forall query d,
         prop query "active" = JStr "true" ->
         d ∈ listed (get_plans query (delete_plan P id created).2) ->
         d.1 <> oid.
Proof.
  intros S C created.
  destruct (post_plans_created now oid body db S) as (p & _ & V & _ & E).
  assert (L : created !! oid = Some p).
  { subst created. rewrite E. apply lookup_insert_eq. }
  exists p. split; [done|].
  rewrite (delete_plan_found P id oid p created C L), V. simpl.
  split; [done|]. split.
  - apply (get_plan_found P id oid); [done | apply lookup_insert_eq].
  - intros query [i q] Ha Hd Hi. simpl in Hi. subst i.
    apply elem_of_listed in Hd as (Hl & Hact & _). simpl in Hl, Hact.
    rewrite lookup_insert_eq in Hl. injection Hl as <-.
    by specialize (Hact Ha).
Qed.

(** ** Records that pass the validators *)

(** X18: create and soft delete keep the collection free of records that
    fail a validator, and in such a collection soft delete of an existing
    record always answers 200. *)
Theorem valid_db_kept (now : Z) (oid : ObjectId) (id : string)
    (body : gmap string jsval) (db : gmap ObjectId Plan) :
  valid_db db ->
  valid_db (post_plans P now oid body db).2
  /\ valid_db (delete_plan P id db).2
  /\ (forall o, castObjectId P id = Some o -> is_Some (db !! o) ->
        status (delete_plan P id db).1 = 200).
Proof.
  intros V. split; [|split].
  - destruct (post_plans_cases P now oid body db)
      as [[E _]|[[E _]|(p & E & _ & _ & Vp & _)]]; rewrite E; simpl; try done.
    intros o q. destruct (decide (oid = o)) as [->|Hne].
    + rewrite lookup_insert_eq. by intros [= <-].
    + rewrite lookup_insert_ne by done. apply V.
  - destruct (delete_plan_result id db)
      as [[_ ->]|(o & p & C & L & Vp & ->)]; [done|]. simpl.
    intros o' q. destruct (decide (o = o')) as [->|Hne].
    + rewrite lookup_insert_eq. intros [= <-].
      by rewrite validate_set_isActive.
    + rewrite lookup_insert_ne by done. apply V.
  - intros o C [p L].
    by rewrite (delete_plan_found P id o p db C L), (V o p L).
Qed.

(** ** What a created record holds *)

(** X1: a create answered 201 has stored a record that passes the
    validators; a string [name], a number [price] and the string
    [description], [stripePriceId], [stripeProductId] of the body are stored
    as sent, and the three optional strings the body leaves out are stored
    without a value. *)
Theorem post_plans_stores (now : Z) (oid : ObjectId)
    (body : gmap string jsval) (db : gmap ObjectId Plan) :
  status (post_plans P now oid body db).1 = 201 ->
  exists p,
    (post_plans P now oid body db).2 !! oid = Some p
    /\ validate p = true
    /\ (forall s, prop body "name" = JStr s -> name p = Some s)
    /\ (forall q, prop body "price" = JNum q -> price p = Some q)
    /\ (forall s, prop body "description" = JStr s -> description p = Some s)
    /\ (forall s, prop body "stripePriceId" = JStr s ->
          stripePriceId p = Some s)
    /\ (forall s, prop body "stripeProductId" = JStr s ->
          stripeProductId p = Some s)
    /\ (body !! "description" = None -> description p = None)
    /\ (body !! "stripePriceId" = None -> stripePriceId p = None)
    /\ (body !! "stripeProductId" = None -> stripeProductId p = None).
Proof.
  intros H.
  destruct (post_plans_created now oid body db H) as (p & E & V & _ & R).
  exists p. rewrite R. split; [apply lookup_insert_eq|]. split; [done|].
  apply Plan_new_paths in E.
  destruct E as (En & Ed & Ep & _ & _ & _ & _ & E1 & E2 & _).
  change (prop (create_of body) "name") with (prop body "name") in En.
  change (prop (create_of body) "description")
    with (prop body "description") in Ed.
  change (prop (create_of body) "price") with (prop body "price") in Ep.
  change (prop (create_of body) "stripePriceId")
    with (prop body "stripePriceId") in E1.
  change (prop (create_of body) "stripeProductId")
    with (prop body "stripeProductId") in E2.
  repeat split.
  - intros s B. rewrite B in En. by injection En.
  - intros q B. rewrite B in Ep. by injection Ep.
  - intros s B. rewrite B in Ed. by injection Ed.
  - intros s B. rewrite B in E1. by injection E1.
  - intros s B. rewrite B in E2. by injection E2.
  - intros B. rewrite (prop_absent _ _ B) in Ed. by injection Ed.
  - intros B. rewrite (prop_absent _ _ B) in E1. by injection E1.
  - intros B. rewrite (prop_absent _ _ B) in E2. by injection E2.
Qed.

(** X7: with the store answering, update answers 200 exactly when the
    identifier is well-formed, matches a stored record and every value of
    the body casts to its path, and 404 exactly when identifier and body
    are fine and no record matches; a malformed identifier, and a value that
    fails its cast, are always answered 500, found or not; a 200 leaves the
    record stored with [updatedAt] at the handler's clock. *)
Theorem put_plan_outcomes (now : Z) (id : string) (body : gmap string jsval)
    (db : gmap ObjectId Plan) :
  (status (put_plan P now id body db).1 = 200 <->
     exists oid old change,
       castObjectId P id = Some oid /\ db !! oid = Some old
       /\ castUpdate P (update_of now body) = Ok change)
  /\ (status (put_plan P now id body db).1 = 404 <->
     exists oid change,
       castObjectId P id = Some oid /\ db !! oid = None
       /\ castUpdate P (update_of now body) = Ok change)
  /\ (castObjectId P id = None
      \/ (exists e, castUpdate P (update_of now body) = Throw e) ->
      status (put_plan P now id body db).1 = 500)
  /\ (forall oid,
        castObjectId P id = Some oid ->
        status (put_plan P now id body db).1 = 200 ->
        updatedAt <$> (put_plan P now id body db).2 !! oid = Some (Some now)).
Proof.
  destruct (castObjectId P id) as [oid|] eqn:C.
  - destruct (put_plan_cases P now id oid body db C)
      as [[E [e U]]|(change & U & E)]; rewrite E.
    + simpl.
      split; [split; [done | intros (o & old & c & _ & _ & ?); congruence]|].
      split; [split; [done | intros (o & c & _ & _ & ?); congruence]|].
      split; done.
    + destruct (db !! oid) as [old|] eqn:L; simpl.
      * split; [split; [intros _; by exists oid, old, change | done]|].
        split; [split; [done | intros (o & c & [= <-] & ? & _); congruence]|].
        split; [intros [?|[e ?]]; congruence|].
        intros o [= <-] _. rewrite lookup_insert_eq. simpl.
        by destruct (update_of_timestamps P now body change old U) as [-> _].
      * split; [split; [done
                       | intros (o & old & c & [= <-] & ? & _); congruence]|].
        split; [split; [intros _; by exists oid, change | done]|].
        split; [intros [?|[e ?]]; congruence|]. done.
  - rewrite put_plan_update. unfold findByIdAndUpdate. rewrite C. simpl.
    split; [split; [done | by intros (o & old & c & ? & _)]|].
    split; [split; [done | by intros (o & c & ? & _)]|].
    split; done.
Qed.

(** X12: on a platform that drops [undefined] from an update, a
    successful update is a partial merge: every key the body leaves out
    keeps its stored value, and [updatedAt] becomes the handler's clock. *)
Theorem put_plan_keeps_omitted (now : Z) (id : string) (oid : ObjectId)
    (body : gmap string jsval) (db : gmap ObjectId Plan) (old : Plan) :
  omitUndefined P = true ->
  castObjectId P id = Some oid ->
  db !! oid = Some old ->
  status (put_plan P now id body db).1 = 200 ->
  exists new,
    (put_plan P now id body db).2 = <[oid := new]> db
    /\ updatedAt new = Some now
    /\ forall k, body !! key_string k = None -> same_at k new old.
Proof.
  intros Hw Hid Hdb S.
  destruct (put_plan_cases P now id oid body db Hid)
    as [[E _]|(change & C & E)]; rewrite E in S |- *; [done|].
  rewrite Hdb. simpl. exists (change old). split; [done|].
  split; [by destruct (update_of_timestamps P now body change old C)|].
  intros k Hk.
  pose proof (update_of_absent P now body change k old C Hk) as U.
  by rewrite Hw in U.
Qed.

Lemma castPath_ext {A} (cast : jsval -> casted A)
    (upd upd' : gmap string jsval) (k : string) :
  upd !! k = upd' !! k -> castPath P cast upd k = castPath P cast upd' k.
Proof. intros H. unfold castPath. by rewrite H. Qed.

Lemma castUpdate_clock (now now' : Z) (body : gmap string jsval)
    (change : Plan -> Plan) :
  castUpdate P (update_of now body) = Ok change ->
  exists change',
    castUpdate P (update_of now' body) = Ok change'
    /\ forall p, change' (change p) = change' p.
Proof.
  intros E. apply castUpdate_paths in E.
  destruct E as ((f1 & E1 & F1) & (f2 & E2 & F2) & (f3 & E3 & F3)
    & (f4 & E4 & F4) & (f5 & E5 & F5) & (f6 & E6 & F6) & (f7 & E7 & F7)
    & (f8 & E8 & F8) & (f9 & E9 & F9) & (f10 & E10 & F10)
    & (f11 & E11 & F11) & (f12 & E12 & F12) & (f13 & E13 & F13)
    & (f14 & E14 & F14)).
  unfold castUpdate.
  rewrite (castPath_ext (castString P) (update_of now' body) (update_of now body) "name" eq_refl), E1.
  rewrite (castPath_ext (castString P) (update_of now' body) (update_of now body) "description" eq_refl), E2.
  rewrite (castPath_ext (castNumber P) (update_of now' body) (update_of now body) "price" eq_refl), E3.
  rewrite (castPath_ext (castString P) (update_of now' body) (update_of now body) "currency" eq_refl), E4.
  rewrite (castPath_ext (castString P) (update_of now' body) (update_of now body) "interval" eq_refl), E5.
  rewrite (castPath_ext (castFeatures P) (update_of now' body) (update_of now body) "features" eq_refl), E6.
  rewrite (castPath_ext (castLimits P) (update_of now' body) (update_of now body) "limits" eq_refl), E7.
  rewrite (castPath_ext (castString P) (update_of now' body) (update_of now body) "stripePriceId" eq_refl), E8.
  rewrite (castPath_ext (castString P) (update_of now' body) (update_of now body) "stripeProductId" eq_refl), E9.
  rewrite (castPath_ext castBoolean (update_of now' body) (update_of now body) "isActive" eq_refl), E10.
  rewrite (castPath_ext castBoolean (update_of now' body) (update_of now body) "isPopular" eq_refl), E11.
  rewrite (castPath_ext (castNumber P) (update_of now' body) (update_of now body) "sortOrder" eq_refl), E12.
  rewrite (castPath_ext castDate (update_of now' body) (update_of now body) "createdAt" eq_refl), E13.
  change (castPath P castDate (update_of now' body) "updatedAt")
    with (Ok (A := option Z -> option Z) (λ _, Some now')).
  eexists. split; [reflexivity|].
  intros p. apply Plan_ext; simpl;
    rewrite ?F1, ?F2, ?F3, ?F4, ?F5, ?F6, ?F7, ?F8, ?F9, ?F10, ?F11, ?F12, ?F13;
    try done; eapply castPath_idem; eassumption.
Qed.

(** X15: a repeated update absorbs the earlier one: sending the same
    update again, at any later clock reading, gives the answer and the
    collection that the second request alone would have given; at the same
    clock reading update is idempotent. *)
Theorem put_plan_absorbs (now now' : Z) (id : string)
    (body : gmap string jsval) (db : gmap ObjectId Plan) :
  put_plan P now' id body (put_plan P now id body db).2
  = put_plan P now' id body db.
Proof.
  destruct (put_plan_result now id body db)
    as [[_ E]|(oid & old & change & C & L & U & E)]; [by rewrite E|].
  rewrite E. simpl.
  destruct (castUpdate_clock now now' body change U) as (change' & U' & A).
  destruct (put_plan_cases P now' id oid body (<[oid := change old]> db) C)
    as [[_ [e X]]|(c1 & U1 & E1)]; [congruence|].
  destruct (put_plan_cases P now' id oid body db C)
    as [[_ [e X]]|(c2 & U2 & E2)]; [congruence|].
  assert (c1 = change') as -> by congruence.
  assert (c2 = change') as -> by congruence.
  rewrite E1, E2, lookup_insert_eq, L.
  by rewrite A, insert_insert_eq.
Qed.

End Further.

(** ** The further properties at the sample requests *)

Lemma post_plans_stores_witness :
  exists p,
    (post_plans (mongoose false) 1000 oid1 basic ∅).2 !! oid1 = Some p
    /\ name p = Some "Basic" /\ price p = Some (999 # 100).
Proof.
  destruct (post_plans_stores (mongoose false) 1000 oid1 basic ∅)
    as (p & L & _ & N & Pr & _).
  - vm_compute. reflexivity.
  - exists p. split; [exact L|].
    split; [apply N | apply Pr]; reflexivity.
Defined.

Lemma post_plans_falsy_defaults_witness :
  exists p,
    (post_plans (mongoose false) 1000 oid1 falsy_body ∅).2 !! oid1 = Some p
    /\ currency p = Some "USD" /\ limits p = Some default_limits
    /\ isPopular p = Some false.
Proof.
  destruct (post_plans_falsy_defaults (mongoose false) 1000 oid1 falsy_body ∅)
    as (p & L & C & _ & _ & Li & Po & _).
  - vm_compute. reflexivity.
  - exists p. split; [exact L|].
    split; [apply C | split; [apply Li | apply Po]]; reflexivity.
Defined.

Lemma create_then_get_witness :
  exists p,
    get_plan (mongoose false) id1
      (post_plans (mongoose false) 1000 oid1 basic ∅).2
    = {| status := 200;
         json := [("success", RBool true); ("data", RDoc (oid1, p))] |}.
Proof.
  destruct (create_then_get (mongoose false) 1000 oid1 id1 basic ∅)
    as (p & _ & G & _).
  - vm_compute. reflexivity.
  - vm_compute. reflexivity.
  - exists p. exact G.
Defined.

Lemma get_plans_count_witness :
  length (listed (get_plans active_false deleted)) = size deleted.
Proof.
  destruct (get_plans_count active_false deleted) as (_ & _ & _ & H).
  apply H; intros E; vm_compute in E; discriminate E.
Defined.

Lemma create_count_witness :
  field "count"
    (get_plans ∅ (post_plans (mongoose false) 1000 oid1 basic ∅).2)
  = Some (RNum (S (size (∅ : gmap ObjectId Plan)))).
Proof.
  pose proof (create_count (mongoose false) 1000 oid1 basic ∅) as H.
  cbv zeta in H. destruct H as (H & _).
  apply H. vm_compute. reflexivity.
Defined.

Lemma get_plan_outcomes_witness :
  status (get_plan (mongoose false) id1 db1) = 200.
Proof.
  destruct (get_plan_outcomes (mongoose false) id1 db1) as (H & _).
  apply H. exists oid1, plan1. split; vm_compute; reflexivity.
Defined.

Lemma put_plan_outcomes_witness :
  updatedAt <$> (put_plan (mongoose false) 2000 id1 price_only db1).2 !! oid1
  = Some (Some 2000%Z).
Proof.
  destruct (put_plan_outcomes (mongoose false) 2000 id1 price_only db1)
    as (_ & _ & _ & H).
  apply H; vm_compute; reflexivity.
Defined.

Lemma delete_plan_outcomes_witness :
  (delete_plan (mongoose false) bad_id db1).2 = db1.
Proof.
  destruct (delete_plan_outcomes (mongoose false) bad_id db1)
    as (_ & _ & _ & H).
  apply H. intros E. vm_compute in E. discriminate E.
Defined.

Lemma failure_envelope_witness :
  is_failure (get_plan (mongoose false) unknown_id db1).
Proof.
  destruct (failure_envelope (mongoose false) 0 oid1 unknown_id ∅ db1)
    as (H & _).
  apply H. intros E. vm_compute in E. discriminate E.
Defined.

Lemma update_delete_frame_witness :
  (put_plan (mongoose false) 2000 id1 price_only db2).2 !! oid2 = db2 !! oid2.
Proof.
  destruct (update_delete_frame (mongoose false) 2000 id1 price_only db2)
    as (_ & _ & _ & H).
  apply H. intros E. vm_compute in E. discriminate E.
Defined.

Lemma put_plan_keeps_omitted_witness :
  exists new,
    (put_plan (mongoose true) 2000 id1 price_only db1).2 = <[oid1 := new]> db1
    /\ name new = name plan1.
Proof.
  destruct (put_plan_keeps_omitted (mongoose true) 2000 id1 oid1 price_only
              db1 plan1) as (new & E & _ & K).
  - reflexivity.
  - vm_compute. reflexivity.
  - vm_compute. reflexivity.
  - vm_compute. reflexivity.
  - exists new. split; [exact E|]. apply (K Kname). reflexivity.
Defined.

Lemma put_plan_sets_isActive_witness :
  exists new,
    (put_plan (mongoose true) 3000 id1 reactivate deleted).2 !! oid1 = Some new
    /\ isActive new = Some true.
Proof.
  destruct (put_plan_sets_isActive (mongoose true) 3000 id1 oid1 reactivate
              deleted true) as (new & L & A & _).
  - vm_compute. reflexivity.
  - vm_compute. reflexivity.
  - reflexivity.
  - exists new. split; [exact L | exact A].
Defined.

Lemma put_plan_no_validation_witness :
  delete_plan (mongoose true) id1
    (put_plan (mongoose true) 2000 id1 null_name db1).2
  = (failure 500 "Failed to delete plan",
     (put_plan (mongoose true) 2000 id1 null_name db1).2).
Proof.
  refine (proj2 (put_plan_no_validation (mongoose true) 2000 id1 oid1
                   null_name db1 _ _ _)).
  - vm_compute. reflexivity.
  - vm_compute. reflexivity.
  - left. reflexivity.
Defined.

Lemma create_delete_list_witness :
  exists p,
    db1 !! oid1 = Some p
    /\ status (delete_plan (mongoose false) id1 db1).1 = 200.
Proof.
  pose proof (create_delete_list (mongoose false) 1000 oid1 id1 basic ∅) as H.
  cbv zeta in H. destruct H as (p & L & S & _).
  - vm_compute. reflexivity.
  - vm_compute. reflexivity.
  - exists p. split; [exact L | exact S].
Defined.

Lemma valid_db_kept_witness : valid_db db1.
Proof.
  refine (proj1 (valid_db_kept (mongoose false) 1000 oid1 id1 basic ∅ _)).
  intros o p E. rewrite lookup_empty in E. discriminate E.
Defined.
